(** * jx step create task: the pipeline-to-task compiler

    A shallow embedding of [pkg/jx/cmd/step_create_task.go]: the functions
    [generateTask], [generatePipeline], [createSteps],
    [removeUnnecessaryVolumes] and [removeUnnecessaryEnvVars], together
    with the handful of Go standard-library string and path helpers they
    call, followed by the properties of the compiler that the
    specification states. *)

From Stdlib Require Import String Ascii List Bool Arith Lia.
From stdpp Require Import base decidable option list strings gmap fin_maps.

Import ListNotations.
Set Warnings "-register-all".
Local Open Scope string_scope.
Local Open Scope list_scope.

(** ** Go standard library: [strings] and [path/filepath] (Unix) *)

(** [strings.HasPrefix(s, prefix)]. *)
Definition strings_HasPrefix (s prefix : string) : bool := String.prefix prefix s.

(** [strings.TrimPrefix(s, prefix)]: [s] without the leading [prefix],
    or [s] itself when it does not start with [prefix]. *)
Definition strings_TrimPrefix (s prefix : string) : string :=
  if strings_HasPrefix s prefix
  then String.substring (String.length prefix) (String.length s - String.length prefix) s
  else s.

(** [strings.Join(elems, sep)]. *)
Definition strings_Join (elems : list string) (sep : string) : string :=
  String.concat sep elems.

(** [filepath.IsAbs(path)] on Unix: the path starts with a slash. *)
Definition filepath_IsAbs (path : string) : bool := strings_HasPrefix path "/".

(** The elements of a path between its separators: [splitSlash cur p]
    reads [p] after the bytes [cur] of the current element. *)
Fixpoint splitSlash (cur p : string) : list string :=
  match p with
  | EmptyString => [cur]
  | String c rest =>
      if Ascii.eqb c "/" then cur :: splitSlash "" rest
      else splitSlash (cur +:+ String c "") rest
  end.

(** The element loop of [filepath.Clean]: [out] holds the elements written
    so far, last one first.  An empty element and [.] are skipped; [..]
    removes the last element written when there is one that is not itself
    a leading [..]; otherwise it is dropped in a rooted path and written in
    a relative one. *)
Fixpoint cleanElems (rooted : bool) (out : list string) (elems : list string) : list string :=
  match elems with
  | [] => out
  | e :: rest =>
      if String.eqb e "" then cleanElems rooted out rest
      else if String.eqb e "." then cleanElems rooted out rest
      else if String.eqb e ".." then
        match out with
        | last :: out' =>
            if String.eqb last ".." then cleanElems rooted (e :: out) rest
            else cleanElems rooted out' rest
        | [] =>
            if rooted then cleanElems rooted out rest
            else cleanElems rooted (e :: out) rest
        end
      else cleanElems rooted (e :: out) rest
  end.

(** [filepath.Clean(path)] on Unix. *)
Definition filepath_Clean (path : string) : string :=
  if String.eqb path "" then "."
  else
    let rooted := filepath_IsAbs path in
    let out := rev (cleanElems rooted [] (splitSlash "" path)) in
    if rooted then "/" +:+ strings_Join out "/"
    else match out with
         | [] => "."
         | _ => strings_Join out "/"
         end.

(** [filepath.Join(elem...)]: the elements from the first non-empty one on,
    joined by the separator and cleaned; the empty string when all are
    empty. *)
Fixpoint filepath_Join (elem : list string) : string :=
  match elem with
  | [] => ""
  | e :: rest =>
      if String.eqb e "" then filepath_Join rest
      else filepath_Clean (strings_Join elem "/")
  end.

(** ** Kubernetes core types ([k8s.io/api/core/v1]) *)

Module corev1.

(** [EnvVar]: the name, the literal value and the source of the value
    ([ValueFrom], nil when the value is literal), a reference kept as
    text. *)
Record EnvVar := mkEnvVar {
  EnvVar_Name : string;
  EnvVar_Value : string;
  EnvVar_ValueFrom : option string
}.

Record VolumeMount := mkVolumeMount {
  VolumeMount_Name : string;
  MountPath : string
}.

(** [Container].  A nil slice and an empty slice are both the empty list.
    The fields this file never names (ports, envFrom, resources,
    volumeDevices, the probes, lifecycle, the termination message path and
    policy, imagePullPolicy, securityContext, stdin, stdinOnce and tty) are
    carried together in [Other], each by its name with its value kept as
    text: the compiler copies them with the struct and never looks at
    them. *)
Record Container := mkContainer {
  Name : string;
  Image : string;
  Command : list string;
  Args : list string;
  WorkingDir : string;
  Env : list EnvVar;
  VolumeMounts : list VolumeMount;
  Other : list (string * string)
}.

Record PodSpec := mkPodSpec {
  Containers : list Container
}.

Record Pod := mkPod {
  Spec : PodSpec
}.

End corev1.

(** ** The build-pack pipeline model ([pkg/jenkinsfile]) *)

Module jenkinsfile.

(** [PipelineStep]: a step carries an optional shell command, an optional
    container and directory, and nested steps.  [Steps] is a slice of
    pointers in the source; a nil entry, which lines 239-240 and 320-321
    hand to [createSteps] unchecked, is not represented. *)
Inductive PipelineStep : Type := mkPipelineStep {
  Command : string;
  Container : string;
  Dir : string;
  Steps : list PipelineStep
}.

Record PipelineLifecycle := mkPipelineLifecycle {
  LifecycleSteps : list PipelineStep
}.

(** Modelled from the spec: the struct [PipelineLifecycles] and its method
    [All()] are declared in [pkg/jenkinsfile], outside this file.  A value
    is represented by what [All()] returns: the stages in their fixed
    declared order, each possibly nil. *)
Record PipelineLifecycles := mkPipelineLifecycles {
  All : list (option PipelineLifecycle)
}.

Record Pipelines := mkPipelines {
  Release : option PipelineLifecycles;
  PullRequest : option PipelineLifecycles;
  Feature : option PipelineLifecycles
}.

Record PipelineAgent := mkPipelineAgent {
  Agent_Container : string
}.

Record PipelineConfig := mkPipelineConfig {
  Agent : PipelineAgent;
  Pipelines_ : Pipelines
}.

End jenkinsfile.

(** ** The generated Task ([knative/build-pipeline]) *)

Module pipelineapi.

(** [TypeMeta], [ObjectMeta] and [TaskSpec] flattened into one record. *)
Record Task := mkTask {
  APIVersion : string;
  Kind : string;
  Name : string;
  Steps : list corev1.Container
}.

End pipelineapi.

(** ** Results of the stateful functions *)

(** A call either returns a value and leaves the receiver's field
    [o.MissingPodTemplates], a Go [map[string]bool], in some state, or the
    process panics on a nil pointer. *)
Inductive result (A : Type) : Type :=
  | Returns (a : A) (missing : gmap string bool)
  | NilPanic.
Arguments Returns {A} a missing.
Arguments NilPanic {A}.

(** What [generatePipeline] has done when it is through with the steps:
    nothing at all and a nil error, a Task built and handed to the YAML
    marshaller and the output sink of lines 260-274, or an error and no
    Task. *)
Inductive Outcome : Type :=
  | NoTask
  | Emitted (task : pipelineapi.Task)
  | Failed (err : string).

(** ** The container sanitizer *)

(** [removeUnnecessaryVolumes]. *)
Definition removeUnnecessaryVolumes (container : corev1.Container) : corev1.Container :=
  {| corev1.Name := corev1.Name container;
     corev1.Image := corev1.Image container;
     corev1.Command := corev1.Command container;
     corev1.Args := corev1.Args container;
     corev1.WorkingDir := corev1.WorkingDir container;
     corev1.Env := corev1.Env container;
     corev1.VolumeMounts := [];
     corev1.Other := corev1.Other container |}.

(** The loop of [removeUnnecessaryEnvVars] over [container.Env]. *)
Fixpoint removeUnnecessaryEnvVars_loop (env envVars : list corev1.EnvVar) : list corev1.EnvVar :=
  match env with
  | [] => envVars
  | e :: rest =>
      let name := corev1.EnvVar_Name e in
      if strings_HasPrefix name "GIT_" || strings_HasPrefix name "DOCKER_"
         || strings_HasPrefix name "XDG_"
      then removeUnnecessaryEnvVars_loop rest envVars
      else removeUnnecessaryEnvVars_loop rest (envVars ++ [e])
  end.

(** [removeUnnecessaryEnvVars]. *)
Definition removeUnnecessaryEnvVars (container : corev1.Container) : corev1.Container :=
  {| corev1.Name := corev1.Name container;
     corev1.Image := corev1.Image container;
     corev1.Command := corev1.Command container;
     corev1.Args := corev1.Args container;
     corev1.WorkingDir := corev1.WorkingDir container;
     corev1.Env := removeUnnecessaryEnvVars_loop (corev1.Env container) [];
     corev1.VolumeMounts := corev1.VolumeMounts container;
     corev1.Other := corev1.Other container |}.

(** The test of [removeUnnecessaryEnvVars] on a name. *)
Definition hasReservedPrefix (name : string) : bool :=
  strings_HasPrefix name "GIT_" || strings_HasPrefix name "DOCKER_"
  || strings_HasPrefix name "XDG_".

(** A name is reserved when it is one of the three prefixes followed by
    some rest. *)
Definition reserved (name : string) : Prop :=
  exists prefix rest, In prefix ["GIT_"; "DOCKER_"; "XDG_"] /\ name = prefix +:+ rest.

(** The path rules as the specification words them (section 4.1), from a
    step's declared dir and the inherited dir; the example [./bar] to
    [/workspace/bar] fixes that the slash after the dot is kept. *)
Definition normalize_spec (declaredDir inheritedDefault : string) : string :=
  if String.eqb declaredDir "" then inheritedDefault
  else if strings_HasPrefix declaredDir "./"
  then "/workspace" +:+ strings_TrimPrefix declaredDir "."
  else if negb (filepath_IsAbs declaredDir) then filepath_Join ["/workspace"; declaredDir]
  else declaredDir.

(** The steps of a subtree in pre-order: the step itself, then the
    subtrees of its nested steps from left to right. *)
Fixpoint preorder (step : jenkinsfile.PipelineStep) : list jenkinsfile.PipelineStep :=
  step :: flat_map preorder (jenkinsfile.Steps step).

(** A step is executable when it has a command. *)
Definition executable (step : jenkinsfile.PipelineStep) : bool :=
  negb (String.eqb (jenkinsfile.Command step) "").

(** The root steps of the non-nil stages, in stage order. *)
Definition stageForest (ls : list (option jenkinsfile.PipelineLifecycle))
    : list jenkinsfile.PipelineStep :=
  flat_map (fun l => match l with
                     | Some l => jenkinsfile.LifecycleSteps l
                     | None => []
                     end) ls.

(** The outcome of a call without the state it leaves. *)
Definition outcomeOf {A : Type} (r : result A) : option A :=
  match r with
  | Returns a _ => Some a
  | NilPanic => None
  end.

(** ** Induction on step trees *)

Section PipelineStep_induction.

Variable P : jenkinsfile.PipelineStep -> Prop.
Hypothesis Hstep : forall command container dir steps,
  Forall P steps -> P (jenkinsfile.mkPipelineStep command container dir steps).

Fixpoint PipelineStep_tree_ind (step : jenkinsfile.PipelineStep) : P step :=
  match step with
  | jenkinsfile.mkPipelineStep command container dir steps =>
      Hstep command container dir steps
        ((fix children (l : list jenkinsfile.PipelineStep) : Forall P l :=
            match l with
            | [] => @List.Forall_nil _ P
            | s :: rest => @List.Forall_cons _ P s rest (PipelineStep_tree_ind s) (children rest)
            end) steps)
  end.

End PipelineStep_induction.


(** ** Entries of a Go map *)

(** A key bound in a map has exactly one entry among the map's entries. *)
Lemma map_one_entry (m : gmap string bool) (k : string) (v : bool) :
  m !! k = Some v ->
  length (List.filter (fun kv => String.eqb kv.1 k) (map_to_list m)) = 1.
Proof.
  intros Hk.
  assert (Hin : (k, v) ∈ map_to_list m) by (by apply elem_of_map_to_list).
  assert (Hnd : NoDup (map_to_list m).*1) by apply NoDup_fst_map_to_list.
  revert Hin Hnd. generalize (map_to_list m). intros l.
  induction l as [|[k' v'] l IH]; intros Hin Hnd.
  - by apply elem_of_nil in Hin.
  - rewrite fmap_cons in Hnd. apply NoDup_cons in Hnd as [Hfresh Hnd].
    apply elem_of_cons in Hin as [Heq|Hin]; simpl.
    + injection Heq as <- <-. rewrite String.eqb_refl. simpl. f_equal.
      clear IH Hnd. induction l as [|[k2 v2] l IH]; [reflexivity|].
      simpl in *. apply not_elem_of_cons in Hfresh as [Hne Hfresh].
      destruct (String.eqb k2 k) eqn:E; [apply String.eqb_eq in E; congruence|].
      by apply IH.
    + destruct (String.eqb k' k) eqn:E.
      * apply String.eqb_eq in E. subst k'. exfalso. apply Hfresh.
        apply list_elem_of_fmap. exists (k, v). split; [reflexivity|exact Hin].
      * by apply IH.
Qed.


(** ** The compiler *)

(** The methods of [StepCreateTaskOptions] read the receiver's
    [PodTemplates] and [PipelineKind] and update its
    [MissingPodTemplates]; the former are parameters here and the latter is
    passed through every call.  [Run] makes [MissingPodTemplates] an empty
    map before it calls [generateTask], so the map is never nil.  The
    pointers to steps and to the pipeline configuration are taken to be
    non-nil, as the YAML loader produces them; the pointers that the code
    tests against nil (a lifecycle set, a lifecycle, a pod template) are
    options. *)

Section Compiler.

(** Constants declared elsewhere in the repository: the default container
    name of package [cmd], the pipeline kinds of [pkg/jenkinsfile] and
    [kube.ToValidName]. *)
Context (defaultContainerName : string).
Context (PipelineKindRelease PipelineKindPullRequest PipelineKindFeature : string).
Context (PipelineKinds : list string).
Context (ToValidName : string -> string).

(** The receiver's field [o.PodTemplates], a Go [map[string]*corev1.Pod]:
    a name that is absent, or bound to nil, reads as nil. *)
Context (PodTemplates : gmap string corev1.Pod).

(** The loop [for _, s := range step.Steps] at the end of [createSteps],
    over the recursive call [rec] with the subtree's container and dir. *)
Definition rangeSteps
    (rec : jenkinsfile.PipelineStep -> gmap string bool ->
           result (list corev1.Container * option string)) :=
  fix loop (ss : list jenkinsfile.PipelineStep) (steps : list corev1.Container)
      (missing : gmap string bool) : result (list corev1.Container * option string) :=
    match ss with
    | [] => Returns (steps, None) missing
    | s :: rest =>
        match rec s missing with
        | NilPanic => NilPanic
        | Returns (childSteps, Some err) missing' => Returns (steps, Some err) missing'
        | Returns (childSteps, None) missing' => loop rest (steps ++ childSteps) missing'
        end
    end.

(** [createSteps]: the steps and the error it returns. *)
Fixpoint createSteps (step : jenkinsfile.PipelineStep) (containerName dir : string)
    (missing : gmap string bool) : result (list corev1.Container * option string) :=
  let steps : list corev1.Container := [] in
  let '(containerName, dir) :=
    if negb (String.eqb (jenkinsfile.Container step) "") then
      (jenkinsfile.Container step, dir)
    else if negb (String.eqb (jenkinsfile.Dir step) "") then
      (containerName, jenkinsfile.Dir step)
    else (containerName, dir) in
  if negb (String.eqb (jenkinsfile.Command step) "") then
    let containerName :=
      if String.eqb containerName "" then defaultContainerName else containerName in
    let '(podTemplate, missing) :=
      match PodTemplates !! containerName with
      | Some pod => (Some pod, missing)
      | None => (PodTemplates !! defaultContainerName, <[containerName := true]> missing)
      end in
    match podTemplate with
    | None => NilPanic
    | Some pod =>
        match corev1.Containers (corev1.Spec pod) with
        | [] =>
            Returns (steps, Some ("No Containers for pod template " +:+ containerName)) missing
        | c :: _ =>
            let c := removeUnnecessaryVolumes c in
            let c := removeUnnecessaryEnvVars c in
            let dir :=
              if strings_HasPrefix dir "./"
              then "/workspace" +:+ strings_TrimPrefix dir "."
              else dir in
            let dir :=
              if negb (filepath_IsAbs dir) then filepath_Join ["/workspace"; dir] else dir in
            let c :=
              {| corev1.Name := corev1.Name c;
                 corev1.Image := "jenkinsxio/jx:latest";
                 corev1.Command := ["/bin/sh"];
                 corev1.Args := ["-c"; jenkinsfile.Command step];
                 corev1.WorkingDir := dir;
                 corev1.Env := corev1.Env c;
                 corev1.VolumeMounts := corev1.VolumeMounts c;
                 corev1.Other := corev1.Other c |} in
            let steps := steps ++ [c] in
            rangeSteps (fun s => createSteps s containerName dir)
              (jenkinsfile.Steps step) steps missing
        end
    end
  else
    rangeSteps (fun s => createSteps s containerName dir)
      (jenkinsfile.Steps step) steps missing.

(** The inner loop of [generatePipeline], [for _, s := range l.Steps]:
    the steps gathered so far, or the error that ends the function. *)
Fixpoint lifecycleSteps (container dir : string) (ss : list jenkinsfile.PipelineStep)
    (steps : list corev1.Container) (missing : gmap string bool)
    : result (list corev1.Container + string) :=
  match ss with
  | [] => Returns (inl steps) missing
  | s :: rest =>
      match createSteps s container dir missing with
      | NilPanic => NilPanic
      | Returns (_, Some err) missing' => Returns (inr err) missing'
      | Returns (ss', None) missing' =>
          lifecycleSteps container dir rest (steps ++ ss') missing'
      end
  end.

(** The outer loop of [generatePipeline], [for _, l := range lifecycles.All()]. *)
Fixpoint allLifecycles (container dir : string)
    (ls : list (option jenkinsfile.PipelineLifecycle))
    (steps : list corev1.Container) (missing : gmap string bool)
    : result (list corev1.Container + string) :=
  match ls with
  | [] => Returns (inl steps) missing
  | None :: rest => allLifecycles container dir rest steps missing
  | Some l :: rest =>
      match lifecycleSteps container dir (jenkinsfile.LifecycleSteps l) steps missing with
      | NilPanic => NilPanic
      | Returns (inr err) missing' => Returns (inr err) missing'
      | Returns (inl steps') missing' => allLifecycles container dir rest steps' missing'
      end
  end.

(** [generatePipeline], lines 226-259.  The Task it builds is what reaches
    [yaml.Marshal] and then the log or the output file; marshalling and
    writing, lines 260-274, are [saveTask] below, which [Run] calls on the
    Task. *)
Definition generatePipeline (languageName : string)
    (pipelineConfig : jenkinsfile.PipelineConfig)
    (lifecycles : option jenkinsfile.PipelineLifecycles) (templateKind : string)
    (missing : gmap string bool) : result Outcome :=
  match lifecycles with
  | None => Returns NoTask missing
  | Some lifecycles =>
      let container := jenkinsfile.Agent_Container (jenkinsfile.Agent pipelineConfig) in
      let dir := "/workspace" in
      match allLifecycles container dir (jenkinsfile.All lifecycles) [] missing with
      | NilPanic => NilPanic
      | Returns (inr err) missing' => Returns (Failed err) missing'
      | Returns (inl steps) missing' =>
          let name := "jx-task-" +:+ languageName +:+ "-" +:+ templateKind in
          let task :=
            {| pipelineapi.APIVersion := "pipeline.knative.dev/v1alpha1";
               pipelineapi.Kind := "Task";
               pipelineapi.Name := ToValidName name;
               pipelineapi.Steps := steps |} in
          Returns (Emitted task) missing'
      end
  end.

(** [generateTask], with the receiver's [o.PipelineKind] as [kind]. *)
Definition generateTask (kind : string) (name : string)
    (pipelineConfig : jenkinsfile.PipelineConfig) (missing : gmap string bool)
    : result Outcome :=
  let pipelines := jenkinsfile.Pipelines_ pipelineConfig in
  if String.eqb kind PipelineKindRelease then
    generatePipeline name pipelineConfig (jenkinsfile.Release pipelines) kind missing
  else if String.eqb kind PipelineKindPullRequest then
    generatePipeline name pipelineConfig (jenkinsfile.PullRequest pipelines) kind missing
  else if String.eqb kind PipelineKindFeature then
    generatePipeline name pipelineConfig (jenkinsfile.Feature pipelines) kind missing
  else
    Returns (Failed ("Unknown pipeline kind " +:+ kind +:+ ". Supported values are "
                     +:+ strings_Join PipelineKinds ", ")) missing.

(** *** The traversal seen as a plan

    The definitions below restate what [createSteps] computes in two
    stages, the context each executable step runs in and the resolution
    of each such step, so that properties of a whole step forest can be
    stated.  They are related to the code by [createSteps_runPlan] and
    [generatePipeline_runPlan]. *)

(** The container name and dir in force after lines 281-285. *)
Definition subtreeContext (step : jenkinsfile.PipelineStep) (containerName dir : string)
    : string * string :=
  if negb (String.eqb (jenkinsfile.Container step) "") then (jenkinsfile.Container step, dir)
  else if negb (String.eqb (jenkinsfile.Dir step) "") then (containerName, jenkinsfile.Dir step)
  else (containerName, dir).

(** The name looked up for an executable step (lines 287-289). *)
Definition effectiveName (containerName : string) : string :=
  if String.eqb containerName "" then defaultContainerName else containerName.

(** The working directory of an executable step (lines 307-312). *)
Definition normalizeDir (dir : string) : string :=
  let dir :=
    if strings_HasPrefix dir "./" then "/workspace" +:+ strings_TrimPrefix dir "." else dir in
  if negb (filepath_IsAbs dir) then filepath_Join ["/workspace"; dir] else dir.

(** The step built from the template container [c] (lines 299-316). *)
Definition ownStep (c : corev1.Container) (command dir : string) : corev1.Container :=
  let c := removeUnnecessaryEnvVars (removeUnnecessaryVolumes c) in
  {| corev1.Name := corev1.Name c;
     corev1.Image := "jenkinsxio/jx:latest";
     corev1.Command := ["/bin/sh"];
     corev1.Args := ["-c"; command];
     corev1.WorkingDir := dir;
     corev1.Env := corev1.Env c;
     corev1.VolumeMounts := corev1.VolumeMounts c;
     corev1.Other := corev1.Other c |}.

(** The pod template used for a name: its own, else the default one. *)
Definition resolveTemplate (containerName : string) : option corev1.Pod :=
  match PodTemplates !! containerName with
  | Some pod => Some pod
  | None => PodTemplates !! defaultContainerName
  end.

(** The name under which the pod template used for a name is stored: the
    name itself, else the default container name. *)
Definition resolvedName (containerName : string) : string :=
  match PodTemplates !! containerName with
  | Some _ => containerName
  | None => defaultContainerName
  end.

(** [MissingPodTemplates] after the lookup of a name (lines 291-292). *)
Definition recordMissing (containerName : string) (missing : gmap string bool)
    : gmap string bool :=
  match PodTemplates !! containerName with
  | Some _ => missing
  | None => <[containerName := true]> missing
  end.

(** An executable step in its context: the command, the name looked up
    and the normalized dir. *)
Record Exec := mkExec {
  exec_command : string;
  exec_container : string;
  exec_dir : string
}.

(** The executable steps of a subtree, parent first and children from
    left to right, each with the context it inherits. *)
Fixpoint plan (step : jenkinsfile.PipelineStep) (containerName dir : string) : list Exec :=
  let '(containerName, dir) := subtreeContext step containerName dir in
  if negb (String.eqb (jenkinsfile.Command step) "") then
    let containerName := effectiveName containerName in
    let dir := normalizeDir dir in
    mkExec (jenkinsfile.Command step) containerName dir
      :: flat_map (fun s => plan s containerName dir) (jenkinsfile.Steps step)
  else flat_map (fun s => plan s containerName dir) (jenkinsfile.Steps step).

Definition planSteps (containerName dir : string) (ss : list jenkinsfile.PipelineStep)
    : list Exec :=
  flat_map (fun s => plan s containerName dir) ss.

Definition planAll (containerName dir : string)
    (ls : list (option jenkinsfile.PipelineLifecycle)) : list Exec :=
  flat_map (fun l => match l with
                     | Some l => planSteps containerName dir (jenkinsfile.LifecycleSteps l)
                     | None => []
                     end) ls.

(** Resolution of one executable step: its container, or the error. *)
Definition runExec (e : Exec) (missing : gmap string bool)
    : result (corev1.Container + string) :=
  match resolveTemplate (exec_container e) with
  | None => NilPanic
  | Some pod =>
      match corev1.Containers (corev1.Spec pod) with
      | [] => Returns (inr ("No Containers for pod template " +:+ exec_container e))
                (recordMissing (exec_container e) missing)
      | c :: _ => Returns (inl (ownStep c (exec_command e) (exec_dir e)))
                    (recordMissing (exec_container e) missing)
      end
  end.

Fixpoint runPlan (es : list Exec) (missing : gmap string bool)
    : result (list corev1.Container + string) :=
  match es with
  | [] => Returns (inl []) missing
  | e :: rest =>
      match runExec e missing with
      | NilPanic => NilPanic
      | Returns (inr err) missing' => Returns (inr err) missing'
      | Returns (inl c) missing' =>
          match runPlan rest missing' with
          | NilPanic => NilPanic
          | Returns (inr err) missing'' => Returns (inr err) missing''
          | Returns (inl cs) missing'' => Returns (inl (c :: cs)) missing''
          end
      end
  end.

(** What the caller of [createSteps] looks at: the steps when the error
    is nil, the error otherwise. *)
Definition observed (r : result (list corev1.Container * option string))
    : result (list corev1.Container + string) :=
  match r with
  | NilPanic => NilPanic
  | Returns (ss, None) missing => Returns (inl ss) missing
  | Returns (_, Some err) missing => Returns (inr err) missing
  end.

(** A result with the steps gathered before it in front. *)
Definition after (steps : list corev1.Container)
    (r : result (list corev1.Container + string)) : result (list corev1.Container + string) :=
  match r with
  | Returns (inl ss) missing => Returns (inl (steps ++ ss)) missing
  | other => other
  end.

(** The first container of the template a name resolves to. *)
Definition firstContainer (containerName : string) : option corev1.Container :=
  match resolveTemplate containerName with
  | Some pod => head (corev1.Containers (corev1.Spec pod))
  | None => None
  end.

(** The step compiled for an executable step in its context. *)
Definition compiles (e : Exec) (c : corev1.Container) : Prop :=
  exists c0, firstContainer (exec_container e) = Some c0 /\
             c = ownStep c0 (exec_command e) (exec_dir e).

(** The template of an executable step resolves, and has no container. *)
Definition resolvesEmpty (e : Exec) : Prop :=
  exists pod, resolveTemplate (exec_container e) = Some pod /\
              corev1.Containers (corev1.Spec pod) = [].

(** *** The code against the plan *)

Lemma negb_eqb_empty_true (s : string) : negb (String.eqb s "") = true <-> s <> "".
Proof.
  rewrite negb_true_iff. split.
  - intros H ->. discriminate.
  - intros H. apply String.eqb_neq. exact H.
Qed.

Lemma negb_eqb_empty_false (s : string) : negb (String.eqb s "") = false <-> s = "".
Proof. rewrite negb_false_iff. apply String.eqb_eq. Qed.

(** A step without a command only passes its context down. *)
Lemma createSteps_skip step containerName dir missing :
  jenkinsfile.Command step = "" ->
  createSteps step containerName dir missing =
  rangeSteps
    (fun s => createSteps s (subtreeContext step containerName dir).1
                (subtreeContext step containerName dir).2)
    (jenkinsfile.Steps step) [] missing.
Proof.
  destruct step as [command container sdir steps]; simpl. intros ->.
  unfold subtreeContext; simpl.
  destruct (negb (String.eqb container "")); [reflexivity|].
  destruct (negb (String.eqb sdir "")); reflexivity.
Qed.

(** An executable step whose template has a first container. *)
Lemma createSteps_exec step containerName dir missing c :
  jenkinsfile.Command step <> "" ->
  firstContainer (effectiveName (subtreeContext step containerName dir).1) = Some c ->
  createSteps step containerName dir missing =
  rangeSteps
    (fun s => createSteps s (effectiveName (subtreeContext step containerName dir).1)
                (normalizeDir (subtreeContext step containerName dir).2))
    (jenkinsfile.Steps step)
    [ownStep c (jenkinsfile.Command step)
       (normalizeDir (subtreeContext step containerName dir).2)]
    (recordMissing (effectiveName (subtreeContext step containerName dir).1) missing).
Proof.
  destruct step as [command container sdir steps]; simpl.
  intros Hc%negb_eqb_empty_true.
  unfold subtreeContext, firstContainer, resolveTemplate,
    recordMissing, effectiveName; simpl.
  rewrite Hc.
  destruct (negb (String.eqb container "")); simpl;
    [|destruct (negb (String.eqb sdir "")); simpl].
  all: match goal with
       | |- context [PodTemplates !! ?n] => destruct (PodTemplates !! n) as [pod|] eqn:Hn
       end; simpl.
  all: try (destruct (PodTemplates !! defaultContainerName) as [pod|] eqn:Hd; simpl;
            [|discriminate]).
  all: destruct (corev1.Containers (corev1.Spec pod)) as [|c0 cs]; simpl;
    [discriminate|]; intros [= ->]; reflexivity.
Qed.

(** An executable step whose template has no container. *)
Lemma createSteps_empty step containerName dir missing pod :
  jenkinsfile.Command step <> "" ->
  resolveTemplate (effectiveName (subtreeContext step containerName dir).1) = Some pod ->
  corev1.Containers (corev1.Spec pod) = [] ->
  createSteps step containerName dir missing =
  Returns ([], Some ("No Containers for pod template "
                     +:+ effectiveName (subtreeContext step containerName dir).1))
    (recordMissing (effectiveName (subtreeContext step containerName dir).1) missing).
Proof.
  destruct step as [command container sdir steps]; simpl.
  intros Hc%negb_eqb_empty_true.
  unfold subtreeContext, resolveTemplate,
    recordMissing, effectiveName; simpl.
  rewrite Hc.
  destruct (negb (String.eqb container "")); simpl;
    [|destruct (negb (String.eqb sdir "")); simpl].
  all: match goal with
       | |- context [PodTemplates !! ?n] => destruct (PodTemplates !! n) as [p|] eqn:Hn
       end; simpl.
  all: intros Hp He; rewrite ?Hp; simpl.
  all: try (injection Hp as ->); rewrite He; reflexivity.
Qed.

(** An executable step with no template at all. *)
Lemma createSteps_nil step containerName dir missing :
  jenkinsfile.Command step <> "" ->
  resolveTemplate (effectiveName (subtreeContext step containerName dir).1) = None ->
  createSteps step containerName dir missing = NilPanic.
Proof.
  destruct step as [command container sdir steps]; simpl.
  intros Hc%negb_eqb_empty_true.
  unfold subtreeContext, resolveTemplate, effectiveName; simpl.
  rewrite Hc.
  destruct (negb (String.eqb container "")); simpl;
    [|destruct (negb (String.eqb sdir "")); simpl].
  all: match goal with
       | |- context [PodTemplates !! ?n] => destruct (PodTemplates !! n) as [p|] eqn:Hn
       end; simpl.
  all: try discriminate.
  all: intros ->; reflexivity.
Qed.

Lemma after_nil r : after [] r = r.
Proof. destruct r as [[ss|err] missing|]; reflexivity. Qed.

Lemma after_after acc ss r : after acc (after ss r) = after (acc ++ ss) r.
Proof. destruct r as [[cs|err] missing|]; simpl; [|reflexivity..]. by rewrite app_assoc. Qed.

(** Running a plan in two parts. *)
Lemma runPlan_app es1 es2 missing :
  runPlan (es1 ++ es2) missing =
  match runPlan es1 missing with
  | Returns (inl cs) missing' => after cs (runPlan es2 missing')
  | other => other
  end.
Proof.
  revert missing. induction es1 as [|e es1 IH]; intros missing; simpl.
  - by rewrite after_nil.
  - destruct (runExec e missing) as [[c|err] m1|]; [|reflexivity..].
    rewrite IH. destruct (runPlan es1 m1) as [[cs|err] m2|]; [|reflexivity..].
    destruct (runPlan es2 m2) as [[cs2|err] m3|]; reflexivity.
Qed.

(** The loop over nested steps runs the plans of the nested steps in
    order, provided each nested call does. *)
Lemma rangeSteps_runPlan containerName dir ss :
  Forall (fun s => forall containerName dir missing,
            observed (createSteps s containerName dir missing) =
            runPlan (plan s containerName dir) missing) ss ->
  forall steps missing,
    observed (rangeSteps (fun s => createSteps s containerName dir) ss steps missing) =
    after steps (runPlan (planSteps containerName dir ss) missing).
Proof.
  induction 1 as [|s ss Hs _ IH]; intros steps missing; simpl.
  - by rewrite app_nil_r.
  - rewrite runPlan_app, <- Hs.
    destruct (createSteps s containerName dir missing) as [[cs [err|]] m1|]; simpl;
      [reflexivity| |reflexivity].
    rewrite IH, after_after. reflexivity.
Qed.

(** [createSteps] runs the plan of its step: same steps when it returns
    no error, same error, same [MissingPodTemplates], same panic. *)
Lemma createSteps_runPlan step :
  forall containerName dir missing,
    observed (createSteps step containerName dir missing) =
    runPlan (plan step containerName dir) missing.
Proof.
  induction step as [command container sdir steps IH] using PipelineStep_tree_ind.
  intros containerName dir missing.
  set (step := jenkinsfile.mkPipelineStep command container sdir steps).
  assert (Hplan : plan step containerName dir =
            if negb (String.eqb command "") then
              mkExec command (effectiveName (subtreeContext step containerName dir).1)
                (normalizeDir (subtreeContext step containerName dir).2)
              :: planSteps (effectiveName (subtreeContext step containerName dir).1)
                   (normalizeDir (subtreeContext step containerName dir).2) steps
            else planSteps (subtreeContext step containerName dir).1
                   (subtreeContext step containerName dir).2 steps).
  { subst step. simpl. destruct (subtreeContext _ containerName dir). reflexivity. }
  rewrite Hplan. clear Hplan.
  destruct (negb (String.eqb command "")) eqn:Hcmd.
  - apply negb_eqb_empty_true in Hcmd.
    cbn [runPlan]. unfold runExec; cbn [exec_container exec_command exec_dir].
    destruct (resolveTemplate (effectiveName (subtreeContext step containerName dir).1))
      as [pod|] eqn:Hres.
    + destruct (corev1.Containers (corev1.Spec pod)) as [|c cs] eqn:Hcs.
      * rewrite (createSteps_empty step containerName dir missing pod Hcmd Hres Hcs).
        reflexivity.
      * rewrite (createSteps_exec step containerName dir missing c Hcmd).
        2:{ unfold firstContainer. rewrite Hres, Hcs. reflexivity. }
        rewrite (rangeSteps_runPlan _ _ _ IH). simpl.
        destruct (runPlan _ _) as [[cs'|err] m1|]; reflexivity.
    + rewrite (createSteps_nil step containerName dir missing Hcmd Hres). reflexivity.
  - apply negb_eqb_empty_false in Hcmd.
    rewrite (createSteps_skip step containerName dir missing Hcmd).
    rewrite (rangeSteps_runPlan _ _ _ IH), after_nil. reflexivity.
Qed.

Lemma lifecycleSteps_runPlan containerName dir ss steps missing :
  lifecycleSteps containerName dir ss steps missing =
  after steps (runPlan (planSteps containerName dir ss) missing).
Proof.
  revert steps missing. induction ss as [|s ss IH]; intros steps missing; simpl.
  - by rewrite app_nil_r.
  - rewrite runPlan_app, <- createSteps_runPlan.
    destruct (createSteps s containerName dir missing) as [[cs [err|]] m1|]; simpl;
      [reflexivity| |reflexivity].
    rewrite IH, after_after. reflexivity.
Qed.

Lemma allLifecycles_runPlan containerName dir ls steps missing :
  allLifecycles containerName dir ls steps missing =
  after steps (runPlan (planAll containerName dir ls) missing).
Proof.
  revert steps missing. induction ls as [|[l|] ls IH]; intros steps missing; simpl.
  - by rewrite app_nil_r.
  - rewrite runPlan_app, lifecycleSteps_runPlan.
    destruct (runPlan (planSteps containerName dir (jenkinsfile.LifecycleSteps l)) missing)
      as [[cs|err] m1|]; simpl; [|reflexivity..].
    rewrite IH, after_after. reflexivity.
  - apply IH.
Qed.

(** [generatePipeline] on a non-nil lifecycle set runs the plan of all its
    stages from the agent's container and the workspace root. *)
Lemma generatePipeline_runPlan languageName pipelineConfig lifecycles templateKind missing :
  generatePipeline languageName pipelineConfig (Some lifecycles) templateKind missing =
  match runPlan (planAll (jenkinsfile.Agent_Container (jenkinsfile.Agent pipelineConfig))
                   "/workspace" (jenkinsfile.All lifecycles)) missing with
  | NilPanic => NilPanic
  | Returns (inr err) missing' => Returns (Failed err) missing'
  | Returns (inl steps) missing' =>
      Returns (Emitted {| pipelineapi.APIVersion := "pipeline.knative.dev/v1alpha1";
                          pipelineapi.Kind := "Task";
                          pipelineapi.Name :=
                            ToValidName ("jx-task-" +:+ languageName +:+ "-" +:+ templateKind);
                          pipelineapi.Steps := steps |}) missing'
  end.
Proof.
  unfold generatePipeline. rewrite allLifecycles_runPlan.
  destruct (runPlan _ missing) as [[cs|err] m1|]; reflexivity.
Qed.

(** *** What a plan yields *)

Lemma runExec_inl e missing c missing' :
  runExec e missing = Returns (inl c) missing' ->
  compiles e c /\ missing' = recordMissing (exec_container e) missing.
Proof.
  unfold runExec, compiles, firstContainer.
  destruct (resolveTemplate (exec_container e)) as [pod|]; [|discriminate].
  destruct (corev1.Containers (corev1.Spec pod)) as [|c0 cs]; [discriminate|].
  intros [= <- <-]. split; [|reflexivity]. exists c0. split; reflexivity.
Qed.

Lemma runExec_compiles e missing :
  is_Some (firstContainer (exec_container e)) ->
  exists c, compiles e c /\
            runExec e missing = Returns (inl c) (recordMissing (exec_container e) missing).
Proof.
  intros [c0 Hc0]. exists (ownStep c0 (exec_command e) (exec_dir e)). split.
  - exists c0. split; [exact Hc0|reflexivity].
  - revert Hc0. unfold runExec, firstContainer.
    destruct (resolveTemplate (exec_container e)) as [pod|]; [|discriminate].
    destruct (corev1.Containers (corev1.Spec pod)) as [|c1 cs]; [discriminate|].
    simpl. intros [= ->]. reflexivity.
Qed.

Lemma runExec_resolvesEmpty e missing :
  resolvesEmpty e ->
  runExec e missing =
  Returns (inr ("No Containers for pod template " +:+ exec_container e))
    (recordMissing (exec_container e) missing).
Proof. intros (pod & Hres & Hcs). unfold runExec. rewrite Hres, Hcs. reflexivity. Qed.

(** A plan that returns steps returns one step per executable step, in
    the order of the plan. *)
Lemma runPlan_inl es : forall missing cs missing',
  runPlan es missing = Returns (inl cs) missing' -> Forall2 compiles es cs.
Proof.
  induction es as [|e es IH]; intros missing cs missing'; simpl.
  - intros [= <- _]. constructor.
  - destruct (runExec e missing) as [[c|err] m1|] eqn:He; [|discriminate..].
    destruct (runPlan es m1) as [[cs'|err] m2|] eqn:Hes; [|discriminate..].
    intros [= <- _]. constructor.
    + apply (runExec_inl _ _ _ _ He).
    + apply (IH _ _ _ Hes).
Qed.

(** A plan all of whose steps have a container returns steps. *)
Lemma runPlan_total es : forall missing,
  Forall (fun e => is_Some (firstContainer (exec_container e))) es ->
  exists cs missing', runPlan es missing = Returns (inl cs) missing'.
Proof.
  induction es as [|e es IH]; intros missing Hall; simpl.
  - eauto.
  - apply Forall_cons in Hall as [He Hes].
    destruct (runExec_compiles e missing He) as (c & _ & ->).
    destruct (IH (recordMissing (exec_container e) missing) Hes) as (cs & m2 & ->).
    eauto.
Qed.

(** A plan stops with the error of the first step whose template is empty. *)
Lemma runPlan_first_empty pre e post : forall missing,
  Forall (fun e => is_Some (firstContainer (exec_container e))) pre ->
  resolvesEmpty e ->
  exists missing',
    runPlan (pre ++ e :: post) missing =
    Returns (inr ("No Containers for pod template " +:+ exec_container e)) missing'.
Proof.
  induction pre as [|p pre IH]; intros missing Hpre He; simpl.
  - rewrite (runExec_resolvesEmpty e missing He). eauto.
  - apply Forall_cons in Hpre as [Hp Hpre].
    destruct (runExec_compiles p missing Hp) as (c & _ & ->).
    destruct (IH (recordMissing (exec_container p) missing) Hpre He) as (m2 & ->).
    eauto.
Qed.

(** A plan with a step whose template is empty never returns steps. *)
Lemma runPlan_empty_no_steps es e : forall missing cs missing',
  In e es -> resolvesEmpty e -> runPlan es missing <> Returns (inl cs) missing'.
Proof.
  intros missing cs missing' Hin (pod & Hres & Hcs) Hrun.
  apply runPlan_inl in Hrun.
  assert (Hc : exists c, compiles e c).
  { clear -Hrun Hin. induction Hrun as [|e' c es cs Hc _ IH]; [destruct Hin|].
    destruct Hin as [->|Hin]; [eauto|auto]. }
  destruct Hc as (c & c0 & Hfirst & _).
  unfold firstContainer in Hfirst. rewrite Hres, Hcs in Hfirst. discriminate.
Qed.

(** *** The state a plan leaves *)

Lemma recordMissing_union containerName (missing : gmap string bool) :
  recordMissing containerName missing = recordMissing containerName ∅ ∪ missing.
Proof.
  unfold recordMissing. destruct (PodTemplates !! containerName).
  - by rewrite (left_id_L ∅ (∪)).
  - by rewrite insert_empty, insert_union_singleton_l.
Qed.

(** The outcome of a plan does not depend on the names already recorded,
    and the names it records are added to them. *)
Lemma runPlan_union es : forall missing : gmap string bool,
  runPlan es missing =
  match runPlan es ∅ with
  | Returns r added => Returns r (added ∪ missing)
  | NilPanic => NilPanic
  end.
Proof.
  induction es as [|e es IH]; intros missing; simpl.
  - by rewrite (left_id_L ∅ (∪)).
  - unfold runExec.
    destruct (resolveTemplate (exec_container e)) as [pod|]; [|reflexivity].
    destruct (corev1.Containers (corev1.Spec pod)) as [|c0 cs].
    + by rewrite recordMissing_union.
    + rewrite (IH (recordMissing (exec_container e) missing)).
      rewrite (IH (recordMissing (exec_container e) ∅)).
      destruct (runPlan es ∅) as [[cs'|err] added|]; [| |reflexivity].
      * by rewrite (recordMissing_union _ missing), (assoc_L (∪)).
      * by rewrite (recordMissing_union _ missing), (assoc_L (∪)).
Qed.

(** Names recorded as missing stay recorded. *)
Lemma runPlan_keeps es : forall (missing : gmap string bool) r missing' name,
  runPlan es missing = Returns r missing' ->
  missing !! name = Some true -> missing' !! name = Some true.
Proof.
  induction es as [|e es IH]; intros missing r missing' name; simpl.
  - intros [= _ <-]. done.
  - assert (Hrec : forall n, missing !! name = Some true ->
                     recordMissing n missing !! name = Some true).
    { intros n Hn. unfold recordMissing. destruct (PodTemplates !! n); [done|].
      destruct (decide (n = name)) as [->|Hne].
      - by rewrite lookup_insert_eq.
      - by rewrite lookup_insert_ne. }
    unfold runExec.
    destruct (resolveTemplate (exec_container e)) as [pod|]; [|discriminate].
    destruct (corev1.Containers (corev1.Spec pod)) as [|c0 cs].
    + intros [= _ <-]. apply Hrec.
    + destruct (runPlan es _) as [[cs'|err] m2|] eqn:Hes; [| |discriminate].
      * intros [= _ <-] Hn. eapply IH; [exact Hes|]. by apply Hrec.
      * intros [= _ <-] Hn. eapply IH; [exact Hes|]. by apply Hrec.
Qed.

(** *** Properties of the compiler *)

(** C1. The container override suppresses the dir override, as seen in
    what [createSteps] returns.  When [step.Container] is set, the step's
    own container is built from the pod template of [step.Container], that
    name is the one looked up and recorded, the working directory comes from
    the inherited dir even if [step.Dir] is set too, and the nested steps
    inherit [step.Container] and the inherited dir.  Only when
    [step.Container] is empty and [step.Dir] is set does the working
    directory come from [step.Dir], which the nested steps inherit with the
    inherited container.  When neither is set the container and the dir are
    the inherited ones.  A step without command builds nothing of its own
    and hands the same context to its nested steps. *)
Theorem container_override_suppresses_dir step containerName dir missing :
  (jenkinsfile.Container step <> "" ->
   subtreeContext step containerName dir = (jenkinsfile.Container step, dir) /\
   (jenkinsfile.Command step = "" ->
    createSteps step containerName dir missing =
    rangeSteps (fun s => createSteps s (jenkinsfile.Container step) dir)
      (jenkinsfile.Steps step) [] missing) /\
   (jenkinsfile.Command step <> "" ->
    forall c0,
      firstContainer (jenkinsfile.Container step) = Some c0 ->
      createSteps step containerName dir missing =
      rangeSteps (fun s => createSteps s (jenkinsfile.Container step) (normalizeDir dir))
        (jenkinsfile.Steps step)
        [ownStep c0 (jenkinsfile.Command step) (normalizeDir dir)]
        (recordMissing (jenkinsfile.Container step) missing))) /\
  (jenkinsfile.Container step = "" -> jenkinsfile.Dir step <> "" ->
   subtreeContext step containerName dir = (containerName, jenkinsfile.Dir step) /\
   (jenkinsfile.Command step = "" ->
    createSteps step containerName dir missing =
    rangeSteps (fun s => createSteps s containerName (jenkinsfile.Dir step))
      (jenkinsfile.Steps step) [] missing) /\
   (jenkinsfile.Command step <> "" ->
    forall c0,
      firstContainer (effectiveName containerName) = Some c0 ->
      createSteps step containerName dir missing =
      rangeSteps (fun s => createSteps s (effectiveName containerName)
                             (normalizeDir (jenkinsfile.Dir step)))
        (jenkinsfile.Steps step)
        [ownStep c0 (jenkinsfile.Command step) (normalizeDir (jenkinsfile.Dir step))]
        (recordMissing (effectiveName containerName) missing))) /\
  (jenkinsfile.Container step = "" -> jenkinsfile.Dir step = "" ->
   subtreeContext step containerName dir = (containerName, dir) /\
   (jenkinsfile.Command step = "" ->
    createSteps step containerName dir missing =
    rangeSteps (fun s => createSteps s containerName dir)
      (jenkinsfile.Steps step) [] missing) /\
   (jenkinsfile.Command step <> "" ->
    forall c0,
      firstContainer (effectiveName containerName) = Some c0 ->
      createSteps step containerName dir missing =
      rangeSteps (fun s => createSteps s (effectiveName containerName) (normalizeDir dir))
        (jenkinsfile.Steps step)
        [ownStep c0 (jenkinsfile.Command step) (normalizeDir dir)]
        (recordMissing (effectiveName containerName) missing))).
Proof.
  assert (Hctx : forall context,
            subtreeContext step containerName dir = context ->
            (jenkinsfile.Command step = "" ->
             createSteps step containerName dir missing =
             rangeSteps (fun s => createSteps s context.1 context.2)
               (jenkinsfile.Steps step) [] missing) /\
            (jenkinsfile.Command step <> "" ->
             forall c0,
               firstContainer (effectiveName context.1) = Some c0 ->
               createSteps step containerName dir missing =
               rangeSteps (fun s => createSteps s (effectiveName context.1)
                                      (normalizeDir context.2))
                 (jenkinsfile.Steps step)
                 [ownStep c0 (jenkinsfile.Command step) (normalizeDir context.2)]
                 (recordMissing (effectiveName context.1) missing))).
  { intros context <-. split.
    - apply createSteps_skip.
    - intros Hcommand c0 Hc0. by apply createSteps_exec. }
  assert (Hname : jenkinsfile.Container step <> "" ->
                  effectiveName (jenkinsfile.Container step) = jenkinsfile.Container step).
  { intros Hk%String.eqb_neq. unfold effectiveName. by rewrite Hk. }
  split; [|split].
  - intros Hk.
    assert (Hsub : subtreeContext step containerName dir = (jenkinsfile.Container step, dir)).
    { unfold subtreeContext. by rewrite (proj2 (negb_eqb_empty_true _) Hk). }
    split; [exact Hsub|]. destruct (Hctx _ Hsub) as [Hskip Hexec]. simpl in Hskip, Hexec.
    rewrite (Hname Hk) in Hexec. split; assumption.
  - intros Hk Hd.
    assert (Hsub : subtreeContext step containerName dir
                   = (containerName, jenkinsfile.Dir step)).
    { unfold subtreeContext. rewrite Hk. simpl. by rewrite (proj2 (negb_eqb_empty_true _) Hd). }
    split; [exact Hsub|]. exact (Hctx _ Hsub).
  - intros Hk Hd.
    assert (Hsub : subtreeContext step containerName dir = (containerName, dir)).
    { unfold subtreeContext. rewrite Hk, Hd. reflexivity. }
    split; [exact Hsub|]. exact (Hctx _ Hsub).
Qed.

(** C2, as the code has it.  For a recognized pipeline kind whose lifecycle
    set is nil, [generatePipeline] returns at once with a nil error: no
    Task is built, named or emitted, and [MissingPodTemplates] is left as
    it was. *)
Theorem nil_lifecycles_no_task name pipelineConfig missing :
  (forall kind,
     generatePipeline name pipelineConfig None kind missing = Returns NoTask missing) /\
  (jenkinsfile.Release (jenkinsfile.Pipelines_ pipelineConfig) = None ->
   generateTask PipelineKindRelease name pipelineConfig missing = Returns NoTask missing) /\
  (PipelineKindPullRequest <> PipelineKindRelease ->
   jenkinsfile.PullRequest (jenkinsfile.Pipelines_ pipelineConfig) = None ->
   generateTask PipelineKindPullRequest name pipelineConfig missing = Returns NoTask missing) /\
  (PipelineKindFeature <> PipelineKindRelease ->
   PipelineKindFeature <> PipelineKindPullRequest ->
   jenkinsfile.Feature (jenkinsfile.Pipelines_ pipelineConfig) = None ->
   generateTask PipelineKindFeature name pipelineConfig missing = Returns NoTask missing).
Proof.
  unfold generateTask. repeat split.
  - intros ->. by rewrite String.eqb_refl.
  - intros Hne%String.eqb_neq ->. by rewrite Hne, String.eqb_refl.
  - intros Hr%String.eqb_neq Hp%String.eqb_neq ->. by rewrite Hr, Hp, String.eqb_refl.
Qed.

(** C3, as the code has it.  An executable step whose resolved pod
    template has no container makes [createSteps] return, with no steps,
    the error that names the container name asked for.  That name is the
    one the resolved template is stored under when the name has a template
    of its own; after a fallback the template used is the default one and
    the message still names the name asked for.  A pipeline that holds such
    a step never emits a Task, and when every executable step before it has
    a container the pipeline fails with exactly that error. *)
Theorem empty_template_aborts :
  (forall step containerName dir missing pod,
     jenkinsfile.Command step <> "" ->
     resolveTemplate (effectiveName (subtreeContext step containerName dir).1) = Some pod ->
     corev1.Containers (corev1.Spec pod) = [] ->
     createSteps step containerName dir missing =
     Returns ([], Some ("No Containers for pod template "
                        +:+ effectiveName (subtreeContext step containerName dir).1))
       (recordMissing (effectiveName (subtreeContext step containerName dir).1) missing)) /\
  (forall containerName,
     resolveTemplate containerName = PodTemplates !! resolvedName containerName /\
     (is_Some (PodTemplates !! containerName) -> resolvedName containerName = containerName) /\
     (PodTemplates !! containerName = None -> resolvedName containerName = defaultContainerName)) /\
  (forall name pipelineConfig lifecycles kind missing pre e post,
     planAll (jenkinsfile.Agent_Container (jenkinsfile.Agent pipelineConfig)) "/workspace"
       (jenkinsfile.All lifecycles) = pre ++ e :: post ->
     resolvesEmpty e ->
     (forall task missing',
        generatePipeline name pipelineConfig (Some lifecycles) kind missing
        <> Returns (Emitted task) missing') /\
     (Forall (fun p => is_Some (firstContainer (exec_container p))) pre ->
      exists missing',
        generatePipeline name pipelineConfig (Some lifecycles) kind missing =
        Returns (Failed ("No Containers for pod template " +:+ exec_container e)) missing')).
Proof.
  split; [|split].
  - intros step containerName dir missing pod. apply createSteps_empty.
  - intros containerName. unfold resolveTemplate, resolvedName.
    destruct (PodTemplates !! containerName) as [pod|] eqn:Hpod.
    + rewrite Hpod. split; [reflexivity|]. split; [reflexivity|discriminate].
    + split; [reflexivity|]. split; [|reflexivity]. intros [pod Hsome]. discriminate Hsome.
  - intros name pipelineConfig lifecycles kind missing pre e post Hplan He.
    rewrite generatePipeline_runPlan, Hplan. split.
    + intros task missing' Hrun.
      destruct (runPlan (pre ++ e :: post) missing) as [[cs|err] m1|] eqn:Hp;
        [|discriminate..].
      eapply runPlan_empty_no_steps; [|exact He|exact Hp].
      apply in_or_app. right. left. reflexivity.
    + intros Hpre. destruct (runPlan_first_empty pre e post missing Hpre He) as (m1 & ->).
      eauto.
Qed.

(** The state left by the loop over nested steps is the state left by
    their plan. *)
Lemma rangeSteps_missing containerName dir ss steps missing r missing' :
  rangeSteps (fun s => createSteps s containerName dir) ss steps missing = Returns r missing' ->
  exists r', runPlan (planSteps containerName dir ss) missing = Returns r' missing'.
Proof.
  intros Hrun.
  assert (Hobs := rangeSteps_runPlan containerName dir ss
                    (proj2 (List.Forall_forall _ _) (fun s _ => createSteps_runPlan s))
                    steps missing).
  rewrite Hrun in Hobs.
  destruct (runPlan (planSteps containerName dir ss) missing) as [[cs|err] m1|];
    destruct r as [cs' [err'|]]; simpl in Hobs; try discriminate;
    inversion Hobs; subst; eauto.
Qed.

(** C4, as the code has it.  For an executable step whose container name
    has no pod template, when the default pod template is present and has
    a first container: the lookup is no error, the step is built from the
    default template's first container, the name is recorded in
    [MissingPodTemplates], and however many steps ask for that name, now
    or before, the map holds one entry for it when [createSteps] returns. *)
Theorem missing_template_falls_back step containerName dir missing pod c0 :
  jenkinsfile.Command step <> "" ->
  PodTemplates !! effectiveName (subtreeContext step containerName dir).1 = None ->
  PodTemplates !! defaultContainerName = Some pod ->
  head (corev1.Containers (corev1.Spec pod)) = Some c0 ->
  createSteps step containerName dir missing =
  rangeSteps
    (fun s => createSteps s (effectiveName (subtreeContext step containerName dir).1)
                (normalizeDir (subtreeContext step containerName dir).2))
    (jenkinsfile.Steps step)
    [ownStep c0 (jenkinsfile.Command step)
       (normalizeDir (subtreeContext step containerName dir).2)]
    (<[effectiveName (subtreeContext step containerName dir).1 := true]> missing) /\
  forall r missing',
    createSteps step containerName dir missing = Returns r missing' ->
    missing' !! effectiveName (subtreeContext step containerName dir).1 = Some true /\
    length (List.filter
              (fun kv => String.eqb kv.1 (effectiveName (subtreeContext step containerName dir).1))
              (map_to_list missing')) = 1.
Proof.
  intros Hcmd Habsent Hdefault Hhead.
  assert (Hfirst : firstContainer (effectiveName (subtreeContext step containerName dir).1)
                   = Some c0).
  { unfold firstContainer, resolveTemplate. by rewrite Habsent, Hdefault. }
  assert (Hrec : recordMissing (effectiveName (subtreeContext step containerName dir).1) missing
                 = <[effectiveName (subtreeContext step containerName dir).1 := true]> missing).
  { unfold recordMissing. by rewrite Habsent. }
  assert (Heq := createSteps_exec step containerName dir missing c0 Hcmd Hfirst).
  rewrite Hrec in Heq. split; [exact Heq|].
  intros r missing' Hrun. rewrite Heq in Hrun.
  apply rangeSteps_missing in Hrun as [r' Hrun].
  assert (Hn : missing' !! effectiveName (subtreeContext step containerName dir).1 = Some true).
  { eapply runPlan_keeps; [exact Hrun|]. apply lookup_insert_eq. }
  split; [exact Hn|]. by eapply map_one_entry.
Qed.

(** C10. An executable step returns from [createSteps] only if
    [PodTemplates] has an entry for its container name or for the default
    name: when both are absent the nil fallback template is dereferenced
    and the call panics, with no error returned.  For a step without
    nested steps either entry is also enough for the call to return. *)
Theorem both_templates_absent_panics step containerName dir missing :
  jenkinsfile.Command step <> "" ->
  (PodTemplates !! effectiveName (subtreeContext step containerName dir).1 = None ->
   PodTemplates !! defaultContainerName = None ->
   createSteps step containerName dir missing = NilPanic) /\
  (forall r missing',
     createSteps step containerName dir missing = Returns r missing' ->
     is_Some (PodTemplates !! effectiveName (subtreeContext step containerName dir).1) \/
     is_Some (PodTemplates !! defaultContainerName)) /\
  (jenkinsfile.Steps step = [] ->
   is_Some (PodTemplates !! effectiveName (subtreeContext step containerName dir).1) \/
   is_Some (PodTemplates !! defaultContainerName) ->
   exists r missing', createSteps step containerName dir missing = Returns r missing').
Proof.
  intros Hcmd.
  assert (Hnil : PodTemplates !! effectiveName (subtreeContext step containerName dir).1 = None ->
                 PodTemplates !! defaultContainerName = None ->
                 createSteps step containerName dir missing = NilPanic).
  { intros Hn Hd. apply createSteps_nil; [exact Hcmd|].
    unfold resolveTemplate. by rewrite Hn. }
  split; [exact Hnil|]. split.
  - intros r missing' Hrun.
    destruct (PodTemplates !! effectiveName (subtreeContext step containerName dir).1)
      as [p|] eqn:Hn; [left; eauto|].
    destruct (PodTemplates !! defaultContainerName) as [p|] eqn:Hd; [right; eauto|].
    rewrite (Hnil eq_refl eq_refl) in Hrun. discriminate.
  - intros Hleaf Hsome.
    assert (Hres : is_Some (resolveTemplate
                              (effectiveName (subtreeContext step containerName dir).1))).
    { unfold resolveTemplate.
      destruct (PodTemplates !! effectiveName (subtreeContext step containerName dir).1)
        as [p|]; [eauto|].
      destruct Hsome as [[? [=]]|Hd]; exact Hd. }
    destruct Hres as [p Hres].
    destruct (corev1.Containers (corev1.Spec p)) as [|c cs] eqn:Hcs.
    + rewrite (createSteps_empty step containerName dir missing p Hcmd Hres Hcs). eauto.
    + rewrite (createSteps_exec step containerName dir missing c Hcmd).
      2:{ unfold firstContainer. by rewrite Hres, Hcs. }
      rewrite Hleaf. simpl. eauto.
Qed.

(** *** Order of the compiled steps *)

Lemma planSteps_commands containerName dir ss :
  Forall (fun s => forall containerName dir,
            map exec_command (plan s containerName dir) =
            map jenkinsfile.Command (List.filter executable (preorder s))) ss ->
  map exec_command (planSteps containerName dir ss) =
  map jenkinsfile.Command (List.filter executable (flat_map preorder ss)).
Proof.
  induction 1 as [|s ss Hs _ IH]; simpl; [reflexivity|].
  rewrite List.filter_app, !map_app, Hs. f_equal. exact IH.
Qed.

(** The commands of a plan are the commands of the executable steps of the
    subtree in pre-order. *)
Lemma plan_commands step : forall containerName dir,
  map exec_command (plan step containerName dir) =
  map jenkinsfile.Command (List.filter executable (preorder step)).
Proof.
  induction step as [command container sdir steps IH] using PipelineStep_tree_ind.
  intros containerName dir. simpl.
  destruct (subtreeContext _ containerName dir) as [c d].
  unfold executable at 1. simpl.
  destruct (negb (String.eqb command "")); simpl.
  - f_equal. apply (planSteps_commands _ _ _ IH).
  - apply (planSteps_commands _ _ _ IH).
Qed.

Lemma planAll_commands containerName dir ls :
  map exec_command (planAll containerName dir ls) =
  map jenkinsfile.Command (List.filter executable (flat_map preorder (stageForest ls))).
Proof.
  induction ls as [|[l|] ls IH]; simpl; [reflexivity| |exact IH].
  rewrite flat_map_app, List.filter_app, !map_app, IH. f_equal.
  apply planSteps_commands, List.Forall_forall. intros s _. apply plan_commands.
Qed.

Lemma compiles_args es cs :
  Forall2 compiles es cs ->
  map corev1.Args cs = map (fun command => ["-c"; command]) (map exec_command es).
Proof.
  induction 1 as [|e c es cs (c0 & _ & ->) _ IH]; simpl; [reflexivity|].
  f_equal. exact IH.
Qed.

(** When the default template has a container and no template is empty,
    every name resolves to a container. *)
Lemma firstContainer_total containerName :
  (exists pod, PodTemplates !! defaultContainerName = Some pod) ->
  map_Forall (fun _ pod => corev1.Containers (corev1.Spec pod) <> []) PodTemplates ->
  is_Some (firstContainer containerName).
Proof.
  intros [pod0 Hd] Hall. unfold firstContainer, resolveTemplate.
  destruct (PodTemplates !! containerName) as [pod|] eqn:Hn.
  - specialize (Hall _ _ Hn). simpl in Hall.
    destruct (corev1.Containers (corev1.Spec pod)); [done|]. simpl. eauto.
  - rewrite Hd. specialize (Hall _ _ Hd). simpl in Hall.
    destruct (corev1.Containers (corev1.Spec pod0)); [done|]. simpl. eauto.
Qed.

(** C5. The steps of an emitted Task are, one for one and in order, the
    executable steps met in a pre-order walk (a step before its nested
    steps, nested steps from left to right) of the root steps of the
    non-nil stages taken in the order of [All()]; and a Task is emitted
    whenever the default template is present and no template is empty. *)
Theorem steps_in_preorder name pipelineConfig lifecycles kind missing :
  (forall task missing',
     generatePipeline name pipelineConfig (Some lifecycles) kind missing
     = Returns (Emitted task) missing' ->
     map corev1.Args (pipelineapi.Steps task) =
     map (fun s => ["-c"; jenkinsfile.Command s])
       (List.filter executable (flat_map preorder (stageForest (jenkinsfile.All lifecycles))))) /\
  ((exists pod, PodTemplates !! defaultContainerName = Some pod) ->
   map_Forall (fun _ pod => corev1.Containers (corev1.Spec pod) <> []) PodTemplates ->
   exists task missing',
     generatePipeline name pipelineConfig (Some lifecycles) kind missing
     = Returns (Emitted task) missing').
Proof.
  rewrite generatePipeline_runPlan. split.
  - intros task missing'.
    destruct (runPlan _ missing) as [[cs|err] m1|] eqn:Hrun; [|discriminate..].
    intros [= <- _]. simpl.
    rewrite (compiles_args _ _ (runPlan_inl _ _ _ _ Hrun)), planAll_commands.
    by rewrite map_map.
  - intros Hd Hall.
    destruct (runPlan_total
                (planAll (jenkinsfile.Agent_Container (jenkinsfile.Agent pipelineConfig))
                   "/workspace" (jenkinsfile.All lifecycles)) missing) as (cs & m1 & ->).
    + apply List.Forall_forall. intros e _. by apply firstContainer_total.
    + eauto.
Qed.

(** *** Independence from the names already recorded *)

Lemma generatePipeline_union name pipelineConfig lifecycles kind (missing : gmap string bool) :
  generatePipeline name pipelineConfig lifecycles kind missing =
  match generatePipeline name pipelineConfig lifecycles kind ∅ with
  | Returns o added => Returns o (added ∪ missing)
  | NilPanic => NilPanic
  end.
Proof.
  destruct lifecycles as [lifecycles|].
  - rewrite !generatePipeline_runPlan, (runPlan_union _ missing).
    destruct (runPlan _ ∅) as [[cs|err] added|]; reflexivity.
  - simpl. by rewrite (left_id_L ∅ (∪)).
Qed.

Lemma generateTask_union kind name pipelineConfig (missing : gmap string bool) :
  generateTask kind name pipelineConfig missing =
  match generateTask kind name pipelineConfig ∅ with
  | Returns o added => Returns o (added ∪ missing)
  | NilPanic => NilPanic
  end.
Proof.
  unfold generateTask.
  destruct (String.eqb kind PipelineKindRelease); [apply generatePipeline_union|].
  destruct (String.eqb kind PipelineKindPullRequest); [apply generatePipeline_union|].
  destruct (String.eqb kind PipelineKindFeature); [apply generatePipeline_union|].
  by rewrite (left_id_L ∅ (∪)).
Qed.

(** C9. Compilation is deterministic: what [generateTask] does for a given
    pipeline configuration, pod templates and kind (the Task it emits, the
    error it returns, or the panic) is the same whatever
    [MissingPodTemplates] holds when it starts, and running it again on
    the state it left gives the same Task and the same state. *)
Theorem compilation_deterministic kind name pipelineConfig (missing1 missing2 : gmap string bool) :
  outcomeOf (generateTask kind name pipelineConfig missing1) =
  outcomeOf (generateTask kind name pipelineConfig missing2) /\
  (forall o missing',
     generateTask kind name pipelineConfig missing1 = Returns o missing' ->
     generateTask kind name pipelineConfig missing' = Returns o missing').
Proof.
  split.
  - rewrite (generateTask_union _ _ _ missing1), (generateTask_union _ _ _ missing2).
    destruct (generateTask kind name pipelineConfig ∅); reflexivity.
  - intros o missing'.
    rewrite (generateTask_union _ _ _ missing1), (generateTask_union _ _ _ missing').
    destruct (generateTask kind name pipelineConfig ∅) as [o' added|]; [|discriminate].
    intros [= -> <-]. by rewrite (assoc_L (∪)), (idemp_L (∪)).
Qed.

(** C8. A kind that is none of the three known kinds makes [generateTask]
    fail with an error that quotes the kind and lists [PipelineKinds],
    joined by commas; each known kind goes on to [generatePipeline] with
    the lifecycle set of that kind. *)
Theorem unknown_kind_rejected name pipelineConfig missing :
  (forall kind,
     kind <> PipelineKindRelease -> kind <> PipelineKindPullRequest ->
     kind <> PipelineKindFeature ->
     generateTask kind name pipelineConfig missing =
     Returns (Failed ("Unknown pipeline kind " +:+ kind +:+ ". Supported values are "
                      +:+ strings_Join PipelineKinds ", ")) missing) /\
  generateTask PipelineKindRelease name pipelineConfig missing =
    generatePipeline name pipelineConfig
      (jenkinsfile.Release (jenkinsfile.Pipelines_ pipelineConfig))
      PipelineKindRelease missing /\
  (PipelineKindPullRequest <> PipelineKindRelease ->
   generateTask PipelineKindPullRequest name pipelineConfig missing =
     generatePipeline name pipelineConfig
       (jenkinsfile.PullRequest (jenkinsfile.Pipelines_ pipelineConfig))
       PipelineKindPullRequest missing) /\
  (PipelineKindFeature <> PipelineKindRelease ->
   PipelineKindFeature <> PipelineKindPullRequest ->
   generateTask PipelineKindFeature name pipelineConfig missing =
     generatePipeline name pipelineConfig
       (jenkinsfile.Feature (jenkinsfile.Pipelines_ pipelineConfig))
       PipelineKindFeature missing) /\
  (forall a b c, strings_Join [a; b; c] ", " = a +:+ ", " +:+ b +:+ ", " +:+ c).
Proof.
  unfold generateTask. repeat split.
  - intros kind Hr%String.eqb_neq Hp%String.eqb_neq Hf%String.eqb_neq.
    by rewrite Hr, Hp, Hf.
  - by rewrite String.eqb_refl.
  - intros Hr%String.eqb_neq. by rewrite Hr, String.eqb_refl.
  - intros Hr%String.eqb_neq Hp%String.eqb_neq. by rewrite Hr, Hp, String.eqb_refl.
Qed.

(** *** The working directory *)

(** [strings.HasPrefix(s, prefix)] holds exactly when [s] is [prefix]
    followed by some rest. *)
Lemma strings_HasPrefix_iff (s prefix : string) :
  strings_HasPrefix s prefix = true <-> exists rest, s = prefix +:+ rest.
Proof.
  unfold strings_HasPrefix. revert s.
  induction prefix as [|c p IH]; intros s.
  - split; [exists s; reflexivity|destruct s; reflexivity].
  - destruct s as [|a s].
    + split; [discriminate|intros [r Hr]; discriminate].
    + change (String.prefix (String c p) (String a s))
        with (if ascii_dec c a then String.prefix p s else false).
      destruct (ascii_dec c a) as [->|Hne].
      * rewrite IH. split; intros [r Hr]; exists r.
        -- change (String a s = String a (p +:+ r)). by rewrite Hr.
        -- change (String a s = String a (p +:+ r)) in Hr. by injection Hr.
      * split; [discriminate|].
        intros [r Hr]. change (String a s = String c (p +:+ r)) in Hr. congruence.
Qed.

Lemma substring_all (s : string) : String.substring 0 (String.length s) s = s.
Proof. induction s as [|a s IH]; simpl; [reflexivity|by rewrite IH]. Qed.

(** A dir that starts with [./] has its leading dot replaced by the
    workspace root. *)
Lemma normalizeDir_dot_slash rest : normalizeDir ("./" +:+ rest) = "/workspace/" +:+ rest.
Proof.
  change ("./" +:+ rest) with (String "." (String "/" rest)).
  unfold normalizeDir, strings_TrimPrefix, strings_HasPrefix, filepath_IsAbs, strings_HasPrefix.
  cbn. rewrite substring_all.
  assert (Hp : String.prefix "" rest = true) by (destruct rest; reflexivity).
  rewrite Hp. reflexivity.
Qed.

Lemma filepath_Join_workspace dir :
  filepath_Join ["/workspace"; dir] = filepath_Clean ("/workspace/" +:+ dir).
Proof. reflexivity. Qed.

Lemma filepath_IsAbs_slash s : filepath_IsAbs ("/" +:+ s) = true.
Proof.
  change ("/" +:+ s) with (String "/" s).
  unfold filepath_IsAbs, strings_HasPrefix. cbn. destruct s; reflexivity.
Qed.

Lemma filepath_Join_workspace_abs dir :
  filepath_IsAbs (filepath_Join ["/workspace"; dir]) = true.
Proof.
  rewrite filepath_Join_workspace. unfold filepath_Clean.
  change ("/workspace/" +:+ dir) with ("/" +:+ ("workspace/" +:+ dir)).
  rewrite filepath_IsAbs_slash.
  change (String.eqb ("/" +:+ ("workspace/" +:+ dir)) "") with false.
  cbv iota. apply filepath_IsAbs_slash.
Qed.

Lemma normalizeDir_abs dir : filepath_IsAbs (normalizeDir dir) = true.
Proof.
  unfold normalizeDir.
  destruct (strings_HasPrefix dir "./"); [reflexivity|].
  destruct (filepath_IsAbs dir) eqn:Habs; simpl; [exact Habs|].
  apply filepath_Join_workspace_abs.
Qed.

Lemma normalizeDir_of_abs dir : filepath_IsAbs dir = true -> normalizeDir dir = dir.
Proof.
  intros Habs. unfold normalizeDir.
  assert (Hdot : strings_HasPrefix dir "./" = false).
  { apply strings_HasPrefix_iff in Habs as [r ->]. reflexivity. }
  by rewrite Hdot, Habs.
Qed.

(** C6, as the code has it.  The working directory written into the step
    of an executable step is the normalized dir in force for its subtree
    (C1): [step.Dir] when the step sets a dir and no container, the
    inherited dir otherwise.  Normalizing replaces the leading dot of a dir
    that starts with [./] by [/workspace], joins any other relative dir
    under [/workspace] with [filepath.Join], and leaves an absolute dir
    unchanged; the result is always absolute, so normalizing twice is
    normalizing once. *)
Theorem working_dir_normalized :
  (forall step containerName dir missing c0,
     jenkinsfile.Command step <> "" ->
     firstContainer (effectiveName (subtreeContext step containerName dir).1) = Some c0 ->
     exists own missing1,
       createSteps step containerName dir missing =
       rangeSteps
         (fun s => createSteps s (effectiveName (subtreeContext step containerName dir).1)
                     (normalizeDir (subtreeContext step containerName dir).2))
         (jenkinsfile.Steps step) [own] missing1 /\
       corev1.WorkingDir own = normalizeDir (subtreeContext step containerName dir).2) /\
  (forall rest, normalizeDir ("./" +:+ rest) = "/workspace/" +:+ rest) /\
  (forall dir,
     strings_HasPrefix dir "./" = false -> filepath_IsAbs dir = false ->
     normalizeDir dir = filepath_Join ["/workspace"; dir]) /\
  (forall dir, filepath_IsAbs dir = true -> normalizeDir dir = dir) /\
  (forall dir, normalizeDir (normalizeDir dir) = normalizeDir dir).
Proof.
  repeat split.
  - intros step containerName dir missing c0 Hcmd Hfirst.
    eexists _, _. split.
    + apply (createSteps_exec step containerName dir missing c0 Hcmd Hfirst).
    + reflexivity.
  - apply normalizeDir_dot_slash.
  - intros dir Hdot Habs. unfold normalizeDir. by rewrite Hdot, Habs.
  - apply normalizeDir_of_abs.
  - intros dir. apply normalizeDir_of_abs, normalizeDir_abs.
Qed.

End Compiler.

(** ** The sanitizer *)

Lemma removeUnnecessaryEnvVars_loop_filter env : forall envVars,
  removeUnnecessaryEnvVars_loop env envVars =
  envVars ++ List.filter (fun e => negb (hasReservedPrefix (corev1.EnvVar_Name e))) env.
Proof.
  induction env as [|e env IH]; intros envVars; simpl.
  - by rewrite app_nil_r.
  - fold (hasReservedPrefix (corev1.EnvVar_Name e)).
    destruct (hasReservedPrefix (corev1.EnvVar_Name e)); simpl.
    + apply IH.
    + by rewrite IH, <- app_assoc.
Qed.

Lemma hasReservedPrefix_reserved name : hasReservedPrefix name = true <-> reserved name.
Proof.
  unfold hasReservedPrefix, reserved. rewrite !orb_true_iff, !strings_HasPrefix_iff. split.
  - intros [[[r ->]|[r ->]]|[r ->]]; eexists _, r; (split; [|reflexivity]); simpl; auto.
  - intros (p & r & Hin & ->). simpl in Hin.
    destruct Hin as [<-|[<-|[<-|[]]]]; eauto.
Qed.

(** C7. Sanitizing a template container drops every volume mount, and
    drops exactly the environment entries whose name starts with [GIT_],
    [DOCKER_] or [XDG_]; the other entries stay, unchanged and in order,
    and so do the other fields.  From [GIT_TOKEN], [DOCKER_HOST],
    [XDG_CONFIG], [PATH] only [PATH] is kept. *)
Theorem sanitizer_drops_reserved :
  (forall c,
     corev1.VolumeMounts (removeUnnecessaryEnvVars (removeUnnecessaryVolumes c)) = [] /\
     corev1.Env (removeUnnecessaryEnvVars (removeUnnecessaryVolumes c)) =
       List.filter (fun e => negb (hasReservedPrefix (corev1.EnvVar_Name e))) (corev1.Env c) /\
     (forall e, In e (corev1.Env (removeUnnecessaryEnvVars (removeUnnecessaryVolumes c))) <->
                In e (corev1.Env c) /\ ~ reserved (corev1.EnvVar_Name e)) /\
     corev1.Name (removeUnnecessaryEnvVars (removeUnnecessaryVolumes c)) = corev1.Name c /\
     corev1.Image (removeUnnecessaryEnvVars (removeUnnecessaryVolumes c)) = corev1.Image c /\
     corev1.Command (removeUnnecessaryEnvVars (removeUnnecessaryVolumes c)) = corev1.Command c /\
     corev1.Args (removeUnnecessaryEnvVars (removeUnnecessaryVolumes c)) = corev1.Args c /\
     corev1.WorkingDir (removeUnnecessaryEnvVars (removeUnnecessaryVolumes c))
       = corev1.WorkingDir c /\
     corev1.Other (removeUnnecessaryEnvVars (removeUnnecessaryVolumes c)) = corev1.Other c) /\
  (forall name, hasReservedPrefix name = true <-> reserved name) /\
  (forall name image command args workingDir v1 v2 v3 v4 f1 f2 f3 f4 mounts other,
     removeUnnecessaryEnvVars
       (removeUnnecessaryVolumes
          (corev1.mkContainer name image command args workingDir
             [corev1.mkEnvVar "GIT_TOKEN" v1 f1; corev1.mkEnvVar "DOCKER_HOST" v2 f2;
              corev1.mkEnvVar "XDG_CONFIG" v3 f3; corev1.mkEnvVar "PATH" v4 f4] mounts other)) =
     corev1.mkContainer name image command args workingDir [corev1.mkEnvVar "PATH" v4 f4] []
       other).
Proof.
  split; [|split].
  - intros c. simpl. rewrite removeUnnecessaryEnvVars_loop_filter. simpl.
    split; [reflexivity|]. split; [reflexivity|]. split; [|repeat split; reflexivity].
    intros e. rewrite List.filter_In, negb_true_iff, <- hasReservedPrefix_reserved.
    by rewrite not_true_iff_false.
  - apply hasReservedPrefix_reserved.
  - reflexivity.
Qed.

(** ** Concrete pipelines *)

Definition ex_kinds : list string := ["release"; "pullrequest"; "feature"].

Definition ex_container : corev1.Container :=
  corev1.mkContainer "maven" "old-image" [] [] ""
    [corev1.mkEnvVar "GIT_REF" "master" None; corev1.mkEnvVar "PATH" "/usr/bin" None]
    [corev1.mkVolumeMount "workspace" "/home/jenkins"]
    [("resources", "limits: {memory: 1Gi}")].

(** Pod templates with the default template only. *)
Definition ex_templates : gmap string corev1.Pod :=
  {[ "maven" := corev1.mkPod (corev1.mkPodSpec [ex_container]) ]}.

(** Pod templates whose default template has no container. *)
Definition ex_empty_templates : gmap string corev1.Pod :=
  {[ "maven" := corev1.mkPod (corev1.mkPodSpec []) ]}.

Definition ex_leaf (command : string) : jenkinsfile.PipelineStep :=
  jenkinsfile.mkPipelineStep command "" "" [].

Definition ex_config (release : option jenkinsfile.PipelineLifecycles)
    : jenkinsfile.PipelineConfig :=
  jenkinsfile.mkPipelineConfig (jenkinsfile.mkPipelineAgent "maven")
    (jenkinsfile.mkPipelines release None None).

Definition ex_stage (steps : list jenkinsfile.PipelineStep)
    : option jenkinsfile.PipelineLifecycle :=
  Some (jenkinsfile.mkPipelineLifecycle steps).

(** Stages A and B of the ordering example, with a nil stage between. *)
Definition ex_two_stages : jenkinsfile.PipelineLifecycles :=
  jenkinsfile.mkPipelineLifecycles
    [ex_stage [ex_leaf "a1"; ex_leaf "a2"]; None; ex_stage [ex_leaf "b1"]].

(** [generateTask] with the default container [maven], the kinds
    [release], [pullrequest] and [feature], and names that are valid
    already. *)
Definition ex_generateTask (templates : gmap string corev1.Pod) :=
  generateTask "maven" "release" "pullrequest" "feature" ex_kinds (fun name => name) templates.

Definition ex_generatePipeline (templates : gmap string corev1.Pod) :=
  generatePipeline "maven" (fun name => name) templates.

(** Steps used below: one that sets a container and a dir, one that sets
    a dir only, a group that sets a relative dir for its nested step, and
    one that asks twice for a container without a pod template. *)
Definition ex_both : jenkinsfile.PipelineStep :=
  jenkinsfile.mkPipelineStep "make" "maven" "./bar" [].

Definition ex_dir_only : jenkinsfile.PipelineStep :=
  jenkinsfile.mkPipelineStep "make" "" "./charts" [].

Definition ex_group : jenkinsfile.PipelineStep :=
  jenkinsfile.mkPipelineStep "" "" "foo" [ex_leaf "make"].

Definition ex_nodejs : jenkinsfile.PipelineStep :=
  jenkinsfile.mkPipelineStep "npm test" "nodejs" "" [ex_leaf "npm publish"].

(** A release pipeline of one stage that holds [ex_nodejs]. *)
Definition ex_nodejs_release : jenkinsfile.PipelineLifecycles :=
  jenkinsfile.mkPipelineLifecycles [ex_stage [ex_nodejs]].

(** Pod templates for two container names, and steps that ask for the
    second one: a step with a command, a container, a dir and a nested
    step, and a group without command around a step. *)
Definition ex_gradle_container : corev1.Container :=
  corev1.mkContainer "gradle" "gradle:5" [] [] "" [] [] [].

Definition ex_two_templates : gmap string corev1.Pod :=
  <["gradle" := corev1.mkPod (corev1.mkPodSpec [ex_gradle_container])]> ex_templates.

Definition ex_gradle_bar : jenkinsfile.PipelineStep :=
  jenkinsfile.mkPipelineStep "make" "gradle" "./bar" [ex_leaf "test"].

Definition ex_gradle_group : jenkinsfile.PipelineStep :=
  jenkinsfile.mkPipelineStep "" "gradle" "./bar" [ex_leaf "make"].

(** ** The properties at concrete pipelines *)

Lemma container_override_suppresses_dir_witness :
  createSteps "maven" ex_two_templates ex_gradle_bar "maven" "/workspace/foo" ∅ =
  Returns ([corev1.mkContainer "gradle" "jenkinsxio/jx:latest" ["/bin/sh"] ["-c"; "make"]
              "/workspace/foo" [] [] [];
            corev1.mkContainer "gradle" "jenkinsxio/jx:latest" ["/bin/sh"] ["-c"; "test"]
              "/workspace/foo" [] [] []], None) ∅ /\
  createSteps "maven" ex_two_templates ex_dir_only "gradle" "/workspace/foo" ∅ =
  Returns ([corev1.mkContainer "gradle" "jenkinsxio/jx:latest" ["/bin/sh"] ["-c"; "make"]
              "/workspace/charts" [] [] []], None) ∅ /\
  createSteps "maven" ex_two_templates (ex_leaf "make") "gradle" "/workspace/foo" ∅ =
  Returns ([corev1.mkContainer "gradle" "jenkinsxio/jx:latest" ["/bin/sh"] ["-c"; "make"]
              "/workspace/foo" [] [] []], None) ∅ /\
  createSteps "maven" ex_two_templates ex_gradle_group "maven" "/workspace/foo" ∅ =
  Returns ([corev1.mkContainer "gradle" "jenkinsxio/jx:latest" ["/bin/sh"] ["-c"; "make"]
              "/workspace/foo" [] [] []], None) ∅.
Proof.
  assert (Hgradle : firstContainer "maven" ex_two_templates "gradle" = Some ex_gradle_container)
    by (vm_compute; reflexivity).
  destruct (container_override_suppresses_dir "maven" ex_two_templates ex_gradle_bar
              "maven" "/workspace/foo" ∅) as (H1 & _ & _).
  destruct (container_override_suppresses_dir "maven" ex_two_templates ex_dir_only
              "gradle" "/workspace/foo" ∅) as (_ & H2 & _).
  destruct (container_override_suppresses_dir "maven" ex_two_templates (ex_leaf "make")
              "gradle" "/workspace/foo" ∅) as (_ & _ & H3).
  destruct (container_override_suppresses_dir "maven" ex_two_templates ex_gradle_group
              "maven" "/workspace/foo" ∅) as (H4 & _ & _).
  split; [|split; [|split]].
  - destruct H1 as (_ & _ & Hexec); [discriminate|].
    rewrite (Hexec ltac:(discriminate) ex_gradle_container Hgradle).
    vm_compute. reflexivity.
  - destruct H2 as (_ & _ & Hexec); [reflexivity|discriminate|].
    rewrite (Hexec ltac:(discriminate) ex_gradle_container Hgradle).
    vm_compute. reflexivity.
  - destruct H3 as (_ & _ & Hexec); [reflexivity|reflexivity|].
    rewrite (Hexec ltac:(discriminate) ex_gradle_container Hgradle).
    vm_compute. reflexivity.
  - destruct H4 as (_ & Hskip & _); [discriminate|].
    rewrite (Hskip eq_refl). vm_compute. reflexivity.
Defined.

(** C2 as stated fails: with a nil release lifecycle set no Task is
    emitted, so there is no empty Task with a generated name. *)
Lemma nil_lifecycles_emit_no_task :
  ~ exists task missing',
      ex_generateTask ex_templates "release" "go" (ex_config None) ∅
      = Returns (Emitted task) missing'.
Proof. intros (task & missing' & H). discriminate H. Qed.

Lemma nil_lifecycles_no_task_witness :
  ex_generateTask ex_templates "release" "go" (ex_config None) ∅ = Returns NoTask ∅ /\
  ex_generateTask ex_templates "pullrequest" "go" (ex_config None) ∅ = Returns NoTask ∅ /\
  ex_generateTask ex_templates "feature" "go" (ex_config None) ∅ = Returns NoTask ∅.
Proof.
  destruct (nil_lifecycles_no_task "maven" "release" "pullrequest" "feature" ex_kinds
              (fun name => name) ex_templates "go" (ex_config None) ∅) as (_ & H1 & H2 & H3).
  split; [|split].
  - apply H1. reflexivity.
  - apply H2; [discriminate|reflexivity].
  - apply H3; [discriminate|discriminate|reflexivity].
Defined.

(** C3 as stated fails: after a fallback the template that has no
    container is the default one, stored under [maven], and the error names
    [nodejs], the name asked for, which has no template at all. *)
Lemma empty_template_error_names_request :
  resolvedName "maven" ex_empty_templates "nodejs" = "maven" /\
  resolveTemplate "maven" ex_empty_templates "nodejs" = ex_empty_templates !! "maven" /\
  ex_empty_templates !! "maven" = Some (corev1.mkPod (corev1.mkPodSpec [])) /\
  createSteps "maven" ex_empty_templates ex_nodejs "maven" "/workspace" ∅ =
  Returns ([], Some "No Containers for pod template nodejs") (<["nodejs" := true]> ∅) /\
  ~ exists steps missing',
      createSteps "maven" ex_empty_templates ex_nodejs "maven" "/workspace" ∅ =
      Returns (steps, Some ("No Containers for pod template "
                            +:+ resolvedName "maven" ex_empty_templates "nodejs")) missing'.
Proof.
  split; [vm_compute; reflexivity|]. split; [vm_compute; reflexivity|].
  split; [vm_compute; reflexivity|]. split; [vm_compute; reflexivity|].
  intros (steps & missing' & H). vm_compute in H. discriminate H.
Qed.

Lemma empty_template_aborts_witness :
  (exists missing',
     ex_generatePipeline ex_empty_templates "go"
       (ex_config None) (Some ex_two_stages) "release" ∅
     = Returns (Failed "No Containers for pod template maven") missing') /\
  createSteps "maven" ex_empty_templates ex_nodejs "maven" "/workspace" ∅ =
  Returns ([], Some "No Containers for pod template nodejs") (<["nodejs" := true]> ∅) /\
  (exists missing',
     ex_generatePipeline ex_empty_templates "go"
       (ex_config None) (Some ex_nodejs_release) "release" ∅
     = Returns (Failed "No Containers for pod template nodejs") missing').
Proof.
  destruct (empty_template_aborts "maven" (fun name => name) ex_empty_templates)
    as (Hstep & _ & H).
  split; [|split].
  - destruct (H "go" (ex_config None) ex_two_stages "release" ∅ []
                (mkExec "a1" "maven" "/workspace")
                [mkExec "a2" "maven" "/workspace"; mkExec "b1" "maven" "/workspace"])
      as [_ Hfail].
    + reflexivity.
    + exists (corev1.mkPod (corev1.mkPodSpec [])). split; reflexivity.
    + apply Hfail. constructor.
  - apply (Hstep ex_nodejs "maven" "/workspace" ∅ (corev1.mkPod (corev1.mkPodSpec []))).
    + discriminate.
    + vm_compute. reflexivity.
    + reflexivity.
  - destruct (H "go" (ex_config None) ex_nodejs_release "release" ∅ []
                (mkExec "npm test" "nodejs" "/workspace")
                [mkExec "npm publish" "nodejs" "/workspace"])
      as [_ Hfail].
    + reflexivity.
    + exists (corev1.mkPod (corev1.mkPodSpec [])). split; vm_compute; reflexivity.
    + apply Hfail. constructor.
Defined.

(** C4 as stated fails: a name without a pod template is an error when the
    default template has no container. *)
Lemma missing_template_can_fail :
  ex_empty_templates !! "nodejs" = None /\
  createSteps "maven" ex_empty_templates ex_nodejs "maven" "/workspace" ∅ =
  Returns ([], Some "No Containers for pod template nodejs") (<["nodejs" := true]> ∅).
Proof. split; vm_compute; reflexivity. Qed.

Lemma missing_template_falls_back_witness :
  exists r missing',
    createSteps "maven" ex_templates ex_nodejs "maven" "/workspace" ∅ = Returns r missing' /\
    missing' !! "nodejs" = Some true /\
    length (List.filter (fun kv => String.eqb kv.1 "nodejs") (map_to_list missing')) = 1.
Proof.
  destruct (missing_template_falls_back "maven" ex_templates ex_nodejs "maven" "/workspace" ∅
              (corev1.mkPod (corev1.mkPodSpec [ex_container])) ex_container) as [_ H].
  - discriminate.
  - vm_compute. reflexivity.
  - vm_compute. reflexivity.
  - reflexivity.
  - destruct (createSteps "maven" ex_templates ex_nodejs "maven" "/workspace" ∅)
      as [r missing'|] eqn:E; [|vm_compute in E; discriminate E].
    exists r, missing'. split; [reflexivity|]. apply (H r missing' eq_refl).
Defined.

Lemma steps_in_preorder_witness :
  exists task missing',
    ex_generatePipeline ex_templates "go" (ex_config None) (Some ex_two_stages) "release" ∅
    = Returns (Emitted task) missing' /\
    map corev1.Args (pipelineapi.Steps task) = [["-c"; "a1"]; ["-c"; "a2"]; ["-c"; "b1"]].
Proof.
  destruct (steps_in_preorder "maven" (fun name => name) ex_templates "go" (ex_config None)
              ex_two_stages "release" ∅) as [Horder Htotal].
  destruct Htotal as (task & missing' & E).
  - eexists. vm_compute. reflexivity.
  - apply map_Forall_singleton. discriminate.
  - exists task, missing'. split; [exact E|]. exact (Horder task missing' E).
Defined.

(** C6 as stated fails: the dir a step declares is ignored when the step
    also sets a container, and a relative dir inherited from a group is
    not used verbatim. *)
Lemma working_dir_not_from_declared_dir :
  (exists c,
     createSteps "maven" ex_templates ex_both "" "/workspace" ∅ = Returns ([c], None) ∅ /\
     corev1.WorkingDir c = "/workspace" /\
     normalize_spec (jenkinsfile.Dir ex_both) "/workspace" = "/workspace/bar") /\
  (exists c,
     createSteps "maven" ex_templates ex_group "" "/workspace" ∅ = Returns ([c], None) ∅ /\
     createSteps "maven" ex_templates (ex_leaf "make") "" "foo" ∅ = Returns ([c], None) ∅ /\
     corev1.WorkingDir c = "/workspace/foo" /\
     normalize_spec (jenkinsfile.Dir (ex_leaf "make")) "foo" = "foo").
Proof.
  split; eexists; repeat split; vm_compute; reflexivity.
Qed.

Lemma working_dir_normalized_witness :
  normalizeDir "baz" = "/workspace/baz" /\
  normalizeDir "/abs/path" = "/abs/path" /\
  exists own missing1,
    createSteps "maven" ex_templates ex_dir_only "" "/workspace" ∅ =
    rangeSteps (fun s => createSteps "maven" ex_templates s "maven" "/workspace/charts")
      [] [own] missing1 /\
    corev1.WorkingDir own = "/workspace/charts".
Proof.
  destruct (working_dir_normalized "maven" ex_templates) as (H1 & _ & H3 & H4 & _).
  split; [|split].
  - apply (H3 "baz"); reflexivity.
  - apply (H4 "/abs/path"). reflexivity.
  - apply (H1 ex_dir_only "" "/workspace" ∅ ex_container); [discriminate|].
    vm_compute. reflexivity.
Defined.

Lemma unknown_kind_rejected_witness :
  ex_generateTask ex_templates "nightly" "go" (ex_config None) ∅ =
  Returns (Failed "Unknown pipeline kind nightly. Supported values are release, pullrequest, feature")
    ∅ /\
  ex_generateTask ex_templates "pullrequest" "go" (ex_config None) ∅ =
  ex_generatePipeline ex_templates "go" (ex_config None) None "pullrequest" ∅ /\
  ex_generateTask ex_templates "feature" "go" (ex_config None) ∅ =
  ex_generatePipeline ex_templates "go" (ex_config None) None "feature" ∅.
Proof.
  destruct (unknown_kind_rejected "maven" "release" "pullrequest" "feature" ex_kinds
              (fun name => name) ex_templates "go" (ex_config None) ∅)
    as (H1 & _ & H3 & H4 & _).
  split; [|split].
  - apply (H1 "nightly"); discriminate.
  - apply H3. discriminate.
  - apply H4; discriminate.
Defined.

Lemma compilation_deterministic_witness :
  exists o missing',
    ex_generateTask ex_templates "release" "go"
      (ex_config (Some (jenkinsfile.mkPipelineLifecycles [ex_stage [ex_nodejs]]))) ∅
    = Returns o missing' /\
    missing' !! "nodejs" = Some true /\
    ex_generateTask ex_templates "release" "go"
      (ex_config (Some (jenkinsfile.mkPipelineLifecycles [ex_stage [ex_nodejs]]))) missing'
    = Returns o missing'.
Proof.
  destruct (compilation_deterministic "maven" "release" "pullrequest" "feature" ex_kinds
              (fun name => name) ex_templates "release" "go"
              (ex_config (Some (jenkinsfile.mkPipelineLifecycles [ex_stage [ex_nodejs]]))) ∅ ∅)
    as [_ H].
  destruct (ex_generateTask ex_templates "release" "go"
              (ex_config (Some (jenkinsfile.mkPipelineLifecycles [ex_stage [ex_nodejs]]))) ∅)
    as [o missing'|] eqn:E; [|vm_compute in E; discriminate E].
  exists o, missing'. split; [reflexivity|]. split.
  - vm_compute in E. injection E as _ <-. vm_compute. reflexivity.
  - apply H. exact E.
Defined.

Lemma both_templates_absent_panics_witness :
  createSteps "maven" ∅ (ex_leaf "make") "" "/workspace" ∅ = NilPanic /\
  exists r missing',
    createSteps "maven" ex_templates (ex_leaf "make") "nodejs" "/workspace" ∅
    = Returns r missing'.
Proof.
  destruct (both_templates_absent_panics "maven" ∅ (ex_leaf "make") "" "/workspace" ∅)
    as (H1 & _ & _); [discriminate|].
  destruct (both_templates_absent_panics "maven" ex_templates (ex_leaf "make") "nodejs"
              "/workspace" ∅) as (_ & _ & H3); [discriminate|].
  split.
  - apply H1; reflexivity.
  - apply H3; [reflexivity|]. right. eexists. vm_compute. reflexivity.
Defined.

(** ** Further properties of the compiler *)

Section CompilerProperties.

Context (defaultContainerName : string).
Context (ToValidName : string -> string).
Context (PodTemplates : gmap string corev1.Pod).

(** The result of [createSteps] is determined by what its caller observes
    of it when no error is returned. *)
Lemma observed_inl r ss missing :
  observed r = Returns (inl ss) missing -> r = Returns (ss, None) missing.
Proof.
  destruct r as [[cs [err|]] m|]; simpl; intros H; try discriminate.
  by injection H as -> ->.
Qed.

Lemma plan_nil_of_no_command step containerName dir :
  Forall (fun s => jenkinsfile.Command s = "") (preorder step) ->
  plan defaultContainerName step containerName dir = [].
Proof.
  intros Hall. apply (map_eq_nil exec_command). rewrite plan_commands.
  assert (Hfilter : List.filter executable (preorder step) = []).
  { induction Hall as [|s l Hs _ IH]; simpl; [reflexivity|].
    unfold executable at 1. rewrite Hs. simpl. exact IH. }
  by rewrite Hfilter.
Qed.

(** X1. A step tree in which no step has a command compiles to no step:
    [createSteps] returns an empty list and a nil error, looks up no pod
    template, so cannot panic, and leaves [MissingPodTemplates] as it
    was. *)
Theorem createSteps_without_commands step containerName dir missing :
  Forall (fun s => jenkinsfile.Command s = "") (preorder step) ->
  createSteps defaultContainerName PodTemplates step containerName dir missing =
  Returns ([], None) missing.
Proof.
  intros Hall. apply observed_inl.
  rewrite createSteps_runPlan, (plan_nil_of_no_command _ _ _ Hall). reflexivity.
Qed.

Lemma planAll_stageForest containerName dir ls :
  planAll defaultContainerName containerName dir ls =
  planSteps defaultContainerName containerName dir (stageForest ls).
Proof.
  unfold planSteps. induction ls as [|[l|] ls IH]; simpl; [reflexivity| |exact IH].
  rewrite flat_map_app. f_equal. exact IH.
Qed.

(** X2. A lifecycle set that is not nil but holds no step with a command
    is not treated as a nil one: [generatePipeline] gets through its loops
    without a pod template lookup, leaves [MissingPodTemplates] as it was,
    and builds the Task with the generated name and no steps, which it
    hands to the marshaller on line 260, whatever the pod templates are.
    What becomes of that Task is decided by lines 260-274. *)
Theorem generatePipeline_without_commands name pipelineConfig lifecycles kind missing :
  Forall (fun s => jenkinsfile.Command s = "")
    (flat_map preorder (stageForest (jenkinsfile.All lifecycles))) ->
  generatePipeline defaultContainerName ToValidName PodTemplates name pipelineConfig
    (Some lifecycles) kind missing =
  Returns (Emitted {| pipelineapi.APIVersion := "pipeline.knative.dev/v1alpha1";
                      pipelineapi.Kind := "Task";
                      pipelineapi.Name := ToValidName ("jx-task-" +:+ name +:+ "-" +:+ kind);
                      pipelineapi.Steps := [] |}) missing.
Proof.
  intros Hall. rewrite generatePipeline_runPlan.
  assert (Hplan : planAll defaultContainerName
                    (jenkinsfile.Agent_Container (jenkinsfile.Agent pipelineConfig))
                    "/workspace" (jenkinsfile.All lifecycles) = []).
  { apply (map_eq_nil exec_command). rewrite planAll_commands.
    assert (Hfilter : List.filter executable
                        (flat_map preorder (stageForest (jenkinsfile.All lifecycles))) = []).
    { induction Hall as [|s l Hs _ IH]; simpl; [reflexivity|].
      unfold executable at 1. rewrite Hs. simpl. exact IH. }
    by rewrite Hfilter. }
  rewrite Hplan. reflexivity.
Qed.

(** Every executable step of a plan has a command and an absolute dir. *)
Lemma plan_items step : forall containerName dir,
  Forall (fun e => exec_command e <> "" /\ filepath_IsAbs (exec_dir e) = true)
    (plan defaultContainerName step containerName dir).
Proof.
  induction step as [command container sdir steps IH] using PipelineStep_tree_ind.
  intros containerName dir. simpl.
  destruct (subtreeContext _ containerName dir) as [c d].
  assert (Hsteps : forall c d,
            Forall (fun e => exec_command e <> "" /\ filepath_IsAbs (exec_dir e) = true)
              (flat_map (fun s => plan defaultContainerName s c d) steps)).
  { intros c' d'. induction IH as [|s l Hs _ IHl]; simpl; [constructor|].
    apply Forall_app. split; [apply Hs|exact IHl]. }
  destruct (negb (String.eqb command "")) eqn:Hcmd; [|apply Hsteps].
  constructor; [|apply Hsteps]. simpl. split.
  - by apply negb_eqb_empty_true.
  - apply normalizeDir_abs.
Qed.

Lemma planAll_items containerName dir ls :
  Forall (fun e => exec_command e <> "" /\ filepath_IsAbs (exec_dir e) = true)
    (planAll defaultContainerName containerName dir ls).
Proof.
  induction ls as [|[l|] ls IH]; simpl; [constructor| |exact IH].
  apply Forall_app. split; [|exact IH].
  unfold planSteps. induction (jenkinsfile.LifecycleSteps l) as [|s ss IHs]; simpl;
    [constructor|].
  apply Forall_app. split; [apply plan_items|exact IHs].
Qed.

(** X3. Every step of an emitted Task runs the image
    [jenkinsxio/jx:latest] with the command [/bin/sh -c <command>] for a
    non-empty command, has an absolute working directory, no volume mount
    and no environment variable whose name starts with [GIT_], [DOCKER_] or
    [XDG_]; the Task itself carries the fixed API version and kind and the
    name made from the pack and the pipeline kind. *)
Theorem emitted_task_shape name pipelineConfig lifecycles kind missing task missing' :
  generatePipeline defaultContainerName ToValidName PodTemplates name pipelineConfig
    lifecycles kind missing = Returns (Emitted task) missing' ->
  pipelineapi.APIVersion task = "pipeline.knative.dev/v1alpha1" /\
  pipelineapi.Kind task = "Task" /\
  pipelineapi.Name task = ToValidName ("jx-task-" +:+ name +:+ "-" +:+ kind) /\
  Forall (fun c =>
            corev1.Image c = "jenkinsxio/jx:latest" /\
            corev1.Command c = ["/bin/sh"] /\
            (exists command, command <> "" /\ corev1.Args c = ["-c"; command]) /\
            filepath_IsAbs (corev1.WorkingDir c) = true /\
            corev1.VolumeMounts c = [] /\
            Forall (fun e => ~ reserved (corev1.EnvVar_Name e)) (corev1.Env c))
    (pipelineapi.Steps task).
Proof.
  destruct lifecycles as [lifecycles|]; [|discriminate].
  rewrite generatePipeline_runPlan.
  destruct (runPlan _ _ _ missing) as [[cs|err] m1|] eqn:Hrun; [|discriminate..].
  intros [= <- _]. simpl. repeat split.
  assert (Hitems := planAll_items
            (jenkinsfile.Agent_Container (jenkinsfile.Agent pipelineConfig))
            "/workspace" (jenkinsfile.All lifecycles)).
  apply runPlan_inl in Hrun. revert Hitems.
  induction Hrun as [|e c es cs' (c0 & _ & ->) _ IH]; intros Hitems; [constructor|].
  apply Forall_cons in Hitems as [[Hcmd Habs] Hitems].
  constructor; [|by apply IH].
  simpl. repeat split; [eauto|exact Habs|].
  rewrite removeUnnecessaryEnvVars_loop_filter. simpl.
  apply List.Forall_forall. intros v [_ Hkeep]%List.filter_In Hres.
  apply hasReservedPrefix_reserved in Hres. rewrite Hres in Hkeep. discriminate.
Qed.

(** *** Bookkeeping of missing pod templates *)

Lemma recordMissing_lookup containerName (missing : gmap string bool) name :
  recordMissing PodTemplates containerName missing !! name = missing !! name \/
  (recordMissing PodTemplates containerName missing !! name = Some true /\
   PodTemplates !! name = None).
Proof.
  unfold recordMissing. destruct (PodTemplates !! containerName) eqn:Hn; [by left|].
  destruct (decide (containerName = name)) as [<-|Hne].
  - right. by rewrite lookup_insert_eq.
  - left. by rewrite lookup_insert_ne.
Qed.

Lemma runPlan_missing_cases es : forall (missing : gmap string bool) r missing' name,
  runPlan defaultContainerName PodTemplates es missing = Returns r missing' ->
  missing' !! name = missing !! name \/
  (missing' !! name = Some true /\ PodTemplates !! name = None).
Proof.
  induction es as [|e es IH]; intros missing r missing' name; simpl.
  - intros [= _ <-]. by left.
  - unfold runExec.
    destruct (resolveTemplate _ _ (exec_container e)) as [pod|]; [|discriminate].
    destruct (corev1.Containers (corev1.Spec pod)) as [|c0 cs].
    + intros [= _ <-]. apply recordMissing_lookup.
    + destruct (runPlan _ _ es _) as [[cs'|err] m2|] eqn:Hes; [| |discriminate].
      all: intros [= _ <-].
      all: destruct (IH _ _ _ name Hes) as [Heq|Hnew]; [|by right].
      all: rewrite Heq; apply recordMissing_lookup.
Qed.

Lemma runPlan_records es : forall (missing : gmap string bool) cs missing' e,
  runPlan defaultContainerName PodTemplates es missing = Returns (inl cs) missing' ->
  In e es -> PodTemplates !! exec_container e = None ->
  missing' !! exec_container e = Some true.
Proof.
  induction es as [|e0 es IH]; intros missing cs missing' e; simpl; [intros _ []|].
  destruct (runExec _ _ e0 missing) as [[c|err] m1|] eqn:He0; [|discriminate..].
  destruct (runPlan _ _ es m1) as [[cs'|err] m2|] eqn:Hes; [|discriminate..].
  intros [= _ <-] [->|Hin] Habsent.
  - eapply runPlan_keeps; [exact Hes|].
    apply runExec_inl in He0 as [_ ->]. unfold recordMissing. rewrite Habsent.
    apply lookup_insert_eq.
  - eapply IH; eauto.
Qed.

(** X4. [generatePipeline] only ever adds to [MissingPodTemplates]: when it
    returns, each name is bound as before, or is bound to [true] and has
    no pod template; a name that has a pod template is never recorded.
    When a Task is emitted, the container name of every executable step
    that has no pod template is recorded. *)
Theorem missing_templates_bookkeeping name pipelineConfig lifecycles kind
    (missing : gmap string bool) o missing' :
  generatePipeline defaultContainerName ToValidName PodTemplates name pipelineConfig
    lifecycles kind missing = Returns o missing' ->
  (forall k, missing' !! k = missing !! k \/
             (missing' !! k = Some true /\ PodTemplates !! k = None)) /\
  (forall task ls e,
     o = Emitted task -> lifecycles = Some ls ->
     In e (planAll defaultContainerName
             (jenkinsfile.Agent_Container (jenkinsfile.Agent pipelineConfig))
             "/workspace" (jenkinsfile.All ls)) ->
     PodTemplates !! exec_container e = None ->
     missing' !! exec_container e = Some true).
Proof.
  destruct lifecycles as [lifecycles|].
  - rewrite generatePipeline_runPlan.
    destruct (runPlan _ _ _ missing) as [[cs|err] m1|] eqn:Hrun; [| |discriminate].
    + intros [= <- <-]. split.
      * intros k. eapply runPlan_missing_cases. exact Hrun.
      * intros task ls e _ [= <-] Hin Habsent. eapply runPlan_records; eauto.
    + intros [= <- <-]. split.
      * intros k. eapply runPlan_missing_cases. exact Hrun.
      * intros task ls e [=].
  - simpl. intros [= <- <-]. split; [by left|]. intros task ls e [=].
Qed.

(** *** What of a pipeline matters *)

(** X5. Only the sequence of root steps matters to [generatePipeline]:
    two lifecycle sets whose non-nil stages hold the same root steps in
    the same order compile alike, so nil stages, empty stages and the
    boundaries between stages leave no trace. *)
Theorem stage_boundaries_invisible name pipelineConfig lifecycles1 lifecycles2 kind missing :
  stageForest (jenkinsfile.All lifecycles1) = stageForest (jenkinsfile.All lifecycles2) ->
  generatePipeline defaultContainerName ToValidName PodTemplates name pipelineConfig
    (Some lifecycles1) kind missing =
  generatePipeline defaultContainerName ToValidName PodTemplates name pipelineConfig
    (Some lifecycles2) kind missing.
Proof.
  intros Hsame. rewrite !generatePipeline_runPlan, !planAll_stageForest, Hsame. reflexivity.
Qed.

Lemma planSteps_app containerName dir ss1 ss2 :
  planSteps defaultContainerName containerName dir (ss1 ++ ss2) =
  planSteps defaultContainerName containerName dir ss1 ++
  planSteps defaultContainerName containerName dir ss2.
Proof. unfold planSteps. apply flat_map_app. Qed.

(** X6. A root step without command, container and dir only groups its
    nested steps: putting the nested steps in its place changes nothing
    in what [generatePipeline] does. *)
Theorem plain_group_inlined name pipelineConfig lifecycles1 lifecycles2 kind missing
    pre group post :
  jenkinsfile.Command group = "" ->
  jenkinsfile.Container group = "" ->
  jenkinsfile.Dir group = "" ->
  stageForest (jenkinsfile.All lifecycles1) = pre ++ group :: post ->
  stageForest (jenkinsfile.All lifecycles2) = pre ++ jenkinsfile.Steps group ++ post ->
  generatePipeline defaultContainerName ToValidName PodTemplates name pipelineConfig
    (Some lifecycles1) kind missing =
  generatePipeline defaultContainerName ToValidName PodTemplates name pipelineConfig
    (Some lifecycles2) kind missing.
Proof.
  intros Hcmd Hk Hd H1 H2.
  rewrite !generatePipeline_runPlan, !planAll_stageForest, H1, H2.
  assert (Hgroup : forall c d,
            planSteps defaultContainerName c d (group :: post) =
            planSteps defaultContainerName c d (jenkinsfile.Steps group ++ post)).
  { intros c d. rewrite planSteps_app.
    destruct group as [command container sdir steps]; simpl in *. subst.
    unfold planSteps. simpl. unfold subtreeContext. reflexivity. }
  by rewrite !planSteps_app, Hgroup, planSteps_app.
Qed.

(** *** The inherited context *)

Lemma effectiveName_idem containerName :
  effectiveName defaultContainerName (effectiveName defaultContainerName containerName) =
  effectiveName defaultContainerName containerName.
Proof.
  unfold effectiveName. destruct (String.eqb containerName "") eqn:Hc; [|by rewrite Hc].
  by destruct (String.eqb defaultContainerName "").
Qed.

(** A subtree asks for the same containers whether it inherits a name or
    the name looked up for it. *)
Lemma plan_effectiveName step : forall containerName dir,
  plan defaultContainerName step (effectiveName defaultContainerName containerName) dir =
  plan defaultContainerName step containerName dir.
Proof.
  induction step as [command container sdir steps IH] using PipelineStep_tree_ind.
  intros containerName dir. simpl. unfold subtreeContext. simpl.
  assert (Hsteps : forall c d,
            flat_map (fun s => plan defaultContainerName s
                                 (effectiveName defaultContainerName c) d) steps =
            flat_map (fun s => plan defaultContainerName s c d) steps).
  { intros c d. induction IH as [|s l Hs _ IHl]; simpl; [reflexivity|].
    by rewrite Hs, IHl. }
  destruct (negb (String.eqb container "")); [reflexivity|].
  destruct (negb (String.eqb sdir ""));
    (destruct (negb (String.eqb command "")); [by rewrite effectiveName_idem|apply Hsteps]).
Qed.

(** X7. Leaving the agent's container empty is the same as naming the
    default container: [generatePipeline] does the same for two pipeline
    configurations that differ only in that. *)
Theorem empty_agent_container_is_default name pipelineConfig1 pipelineConfig2
    lifecycles kind missing :
  jenkinsfile.Agent_Container (jenkinsfile.Agent pipelineConfig1) = "" ->
  jenkinsfile.Agent_Container (jenkinsfile.Agent pipelineConfig2) = defaultContainerName ->
  generatePipeline defaultContainerName ToValidName PodTemplates name pipelineConfig1
    lifecycles kind missing =
  generatePipeline defaultContainerName ToValidName PodTemplates name pipelineConfig2
    lifecycles kind missing.
Proof.
  intros H1 H2. destruct lifecycles as [lifecycles|]; [|reflexivity].
  rewrite !generatePipeline_runPlan, !planAll_stageForest, H1, H2.
  assert (Hplan : forall ss,
            planSteps defaultContainerName "" "/workspace" ss =
            planSteps defaultContainerName defaultContainerName "/workspace" ss).
  { unfold planSteps. induction ss as [|s ss IH]; simpl; [reflexivity|].
    rewrite IH. f_equal.
    change defaultContainerName with (effectiveName defaultContainerName "") at 3.
    by rewrite plan_effectiveName. }
  by rewrite Hplan.
Qed.

(** *** What of a pod template matters *)

(** What [createSteps] keeps of a template container: its name, the
    environment entries that are not dropped, each whole, and every field
    that lines 301-316 do not overwrite. *)
Definition skeleton (c : corev1.Container)
    : string * list corev1.EnvVar * list (string * string) :=
  (corev1.Name c,
   List.filter (fun e => negb (hasReservedPrefix (corev1.EnvVar_Name e))) (corev1.Env c),
   corev1.Other c).

(** What [createSteps] reads of a pod template: the skeleton of its first
    container, if it has one. *)
Definition templateView (pod : corev1.Pod)
    : option (string * list corev1.EnvVar * list (string * string)) :=
  skeleton <$> head (corev1.Containers (corev1.Spec pod)).

Lemma ownStep_skeleton c1 c2 command dir :
  skeleton c1 = skeleton c2 -> ownStep c1 command dir = ownStep c2 command dir.
Proof.
  unfold skeleton, ownStep. simpl. rewrite !removeUnnecessaryEnvVars_loop_filter. simpl.
  intros [= -> -> ->]. reflexivity.
Qed.

Lemma runPlan_templateView (templates : gmap string corev1.Pod) es :
  (forall k, templateView <$> PodTemplates !! k = templateView <$> templates !! k) ->
  forall missing,
    runPlan defaultContainerName PodTemplates es missing =
    runPlan defaultContainerName templates es missing.
Proof.
  intros Hview.
  assert (Hexec : forall e missing,
            runExec defaultContainerName PodTemplates e missing =
            runExec defaultContainerName templates e missing).
  { intros e missing. unfold runExec, resolveTemplate, recordMissing.
    assert (Hpods : forall (o1 o2 : option corev1.Pod) (m : gmap string bool),
              templateView <$> o1 = templateView <$> o2 ->
              match o1 with
              | Some pod =>
                  match corev1.Containers (corev1.Spec pod) with
                  | [] => Returns (inr ("No Containers for pod template " +:+ exec_container e)) m
                  | c :: _ => Returns (inl (ownStep c (exec_command e) (exec_dir e))) m
                  end
              | None => NilPanic
              end =
              match o2 with
              | Some pod =>
                  match corev1.Containers (corev1.Spec pod) with
                  | [] => Returns (inr ("No Containers for pod template " +:+ exec_container e)) m
                  | c :: _ => Returns (inl (ownStep c (exec_command e) (exec_dir e))) m
                  end
              | None => NilPanic
              end).
    { intros [p1|] [p2|] m; simpl; try discriminate; [|reflexivity].
      unfold templateView.
      destruct (corev1.Containers (corev1.Spec p1)) as [|c1 l1];
        destruct (corev1.Containers (corev1.Spec p2)) as [|c2 l2]; simpl;
        try discriminate; [reflexivity|].
      intros Hs. assert (Hsk : skeleton c1 = skeleton c2) by congruence.
      by rewrite (ownStep_skeleton c1 c2 _ _ Hsk). }
    assert (Hk := Hview (exec_container e)).
    destruct (PodTemplates !! exec_container e) as [p1|] eqn:H1;
      destruct (templates !! exec_container e) as [p2|] eqn:H2;
      try discriminate Hk.
    - apply (Hpods (Some p1) (Some p2)). exact Hk.
    - apply (Hpods (PodTemplates !! defaultContainerName) (templates !! defaultContainerName)).
      apply Hview. }
  induction es as [|e es IH]; intros missing; simpl; [reflexivity|].
  rewrite Hexec. destruct (runExec _ _ e missing) as [[c|err] m1|]; [|reflexivity..].
  by rewrite IH.
Qed.

(** X8. Of the pod templates the compiler uses only, for each name,
    whether there is a template, whether it has a container, and of its
    first container everything but what lines 301-316 overwrite or drop:
    the name, the kept environment entries and the fields the compiler
    never names.  With two template maps that agree on these,
    [generatePipeline] does the same.  The image, command, arguments,
    working directory, volume mounts and dropped environment entries of a
    template, and its containers after the first, never reach the Task. *)
Theorem only_template_skeleton_matters (templates : gmap string corev1.Pod)
    name pipelineConfig lifecycles kind missing :
  (forall k, templateView <$> PodTemplates !! k = templateView <$> templates !! k) ->
  generatePipeline defaultContainerName ToValidName PodTemplates name pipelineConfig
    lifecycles kind missing =
  generatePipeline defaultContainerName ToValidName templates name pipelineConfig
    lifecycles kind missing.
Proof.
  intros Hview. destruct lifecycles as [lifecycles|]; [|reflexivity].
  by rewrite !generatePipeline_runPlan, (runPlan_templateView templates _ Hview).
Qed.

(** *** Relative dirs *)

(** A path element holds a slash. *)
Fixpoint hasSlash (s : string) : bool :=
  match s with
  | EmptyString => false
  | String c rest => Ascii.eqb c "/" || hasSlash rest
  end.

(** A plain path element: not empty, not [.] or [..], without slash. *)
Definition plainElement (x : string) : Prop :=
  x <> "" /\ x <> "." /\ x <> ".." /\ hasSlash x = false.

Lemma string_append_nil_r (s : string) : s +:+ "" = s.
Proof.
  induction s as [|c s IH]; [reflexivity|].
  change (String c s +:+ "") with (String c (s +:+ "")). by rewrite IH.
Qed.

Lemma string_append_assoc (s1 s2 s3 : string) : (s1 +:+ s2) +:+ s3 = s1 +:+ (s2 +:+ s3).
Proof.
  induction s1 as [|c s1 IH]; [reflexivity|].
  change (String c (s1 +:+ s2 +:+ s3) = String c ((s1 +:+ s2) +:+ s3)) || idtac.
  change ((String c s1 +:+ s2) +:+ s3) with (String c ((s1 +:+ s2) +:+ s3)).
  change (String c s1 +:+ (s2 +:+ s3)) with (String c (s1 +:+ (s2 +:+ s3))).
  by rewrite IH.
Qed.

Lemma splitSlash_noSlash x : forall cur rest,
  hasSlash x = false -> splitSlash cur (x +:+ rest) = splitSlash (cur +:+ x) rest.
Proof.
  induction x as [|c x IH]; intros cur rest Hx.
  - change ("" +:+ rest) with rest. by rewrite string_append_nil_r.
  - simpl in Hx. apply orb_false_iff in Hx as [Hc Hx].
    change (String c x +:+ rest) with (String c (x +:+ rest)). simpl. rewrite Hc.
    rewrite (IH _ _ Hx), string_append_assoc. reflexivity.
Qed.

Lemma splitSlash_join xs : forall cur x,
  Forall (fun y => hasSlash y = false) (x :: xs) ->
  splitSlash cur (strings_Join (x :: xs) "/") = (cur +:+ x) :: xs.
Proof.
  unfold strings_Join.
  induction xs as [|y xs IH]; intros cur x Hall; apply Forall_cons in Hall as [Hx Hall].
  - simpl. rewrite <- (string_append_nil_r x) at 1.
    rewrite (splitSlash_noSlash x cur "" Hx). reflexivity.
  - change (String.concat "/" (x :: y :: xs))
      with (x +:+ String "/" (String.concat "/" (y :: xs))).
    rewrite (splitSlash_noSlash x cur _ Hx). simpl. f_equal.
    apply (IH "" y Hall).
Qed.

Lemma cleanElems_plain rooted xs : forall out,
  Forall plainElement xs -> cleanElems rooted out xs = rev xs ++ out.
Proof.
  induction xs as [|x xs IH]; intros out Hall; [reflexivity|].
  apply Forall_cons in Hall as [(He & Hd & Hdd & _) Hall]. simpl.
  apply String.eqb_neq in He, Hd, Hdd. rewrite He, Hd, Hdd.
  rewrite (IH _ Hall), <- app_assoc. reflexivity.
Qed.

Lemma plain_not_abs x xs :
  plainElement x -> filepath_IsAbs (strings_Join (x :: xs) "/") = false.
Proof.
  intros (He & _ & _ & Hs). destruct x as [|c x]; [done|].
  simpl in Hs. apply orb_false_iff in Hs as [Hc _].
  unfold filepath_IsAbs, strings_HasPrefix, strings_Join.
  assert (Hhead : exists rest, String.concat "/" (String c x :: xs) = String c rest).
  { destruct xs; simpl; eauto. }
  destruct Hhead as [rest ->].
  change (String.prefix "/" (String c rest))
    with (if ascii_dec "/" c then String.prefix "" rest else false).
  destruct (ascii_dec "/" c) as [<-|]; [|reflexivity].
  by rewrite Ascii.eqb_refl in Hc.
Qed.

Lemma plain_not_dot_slash x xs :
  plainElement x -> strings_HasPrefix (strings_Join (x :: xs) "/") "./" = false.
Proof.
  intros (He & Hd & _ & Hs).
  destruct (strings_HasPrefix (strings_Join (x :: xs) "/") "./") eqn:Hp; [|reflexivity].
  exfalso. apply strings_HasPrefix_iff in Hp as [rest Hrest].
  unfold strings_Join in Hrest.
  destruct x as [|c [|c' x]]; [done| |].
  - destruct xs; simpl in Hrest.
    + change ("./" +:+ rest) with (String "." (String "/" rest)) in Hrest. discriminate.
    + change ("./" +:+ rest) with (String "." (String "/" rest)) in Hrest.
      injection Hrest as -> _. done.
  - assert (Hhead : exists tail, String.concat "/" (String c (String c' x) :: xs)
                                 = String c (String c' tail)).
    { destruct xs; simpl; eauto. }
    destruct Hhead as [tail Htail]. rewrite Htail in Hrest.
    change ("./" +:+ rest) with (String "." (String "/" rest)) in Hrest.
    injection Hrest as _ -> _.
    change (hasSlash (String c (String "/" x)))
      with (Ascii.eqb c "/" || (true || hasSlash x)) in Hs.
    rewrite orb_true_r in Hs. discriminate.
Qed.

Lemma normalizeDir_plain x xs :
  Forall plainElement (x :: xs) ->
  normalizeDir (strings_Join (x :: xs) "/") = "/workspace/" +:+ strings_Join (x :: xs) "/".
Proof.
  intros Hall. assert (Hx := Forall_inv Hall).
  unfold normalizeDir.
  rewrite (plain_not_dot_slash x xs Hx), (plain_not_abs x xs Hx). simpl negb. cbv iota.
  rewrite filepath_Join_workspace. unfold filepath_Clean.
  change ("/workspace/" +:+ strings_Join (x :: xs) "/")
    with ("/" +:+ ("workspace/" +:+ strings_Join (x :: xs) "/")) at 1 2 3.
  rewrite filepath_IsAbs_slash.
  change (String.eqb ("/" +:+ ("workspace/" +:+ strings_Join (x :: xs) "/")) "") with false.
  cbv iota.
  assert (Hsplit : splitSlash "" ("/" +:+ ("workspace/" +:+ strings_Join (x :: xs) "/"))
                   = "" :: "workspace" :: x :: xs).
  { change ("/" +:+ ("workspace/" +:+ strings_Join (x :: xs) "/"))
      with (String "/" ("workspace" +:+ String "/" (strings_Join (x :: xs) "/"))).
    transitivity ("" :: splitSlash "" ("workspace" +:+ String "/" (strings_Join (x :: xs) "/")));
      [reflexivity|]. f_equal.
    rewrite (splitSlash_noSlash "workspace" "" _ eq_refl).
    transitivity ("workspace" :: splitSlash "" (strings_Join (x :: xs) "/"));
      [reflexivity|]. f_equal.
    apply (splitSlash_join xs "" x).
    eapply Forall_impl; [exact Hall|]. by intros y (_ & _ & _ & Hy). }
  change ("/" +:+ ("workspace/" +:+ strings_Join (x :: xs) "/"))
    with ("/workspace/" +:+ strings_Join (x :: xs) "/") in Hsplit.
  rewrite Hsplit.
  change (cleanElems true [] ("" :: "workspace" :: x :: xs))
    with (cleanElems true ["workspace"] (x :: xs)).
  rewrite (cleanElems_plain true (x :: xs) ["workspace"] Hall).
  rewrite rev_app_distr, rev_involutive. reflexivity.
Qed.

(** X9. An executable step that sets no container and a relative dir made
    of plain elements (no empty element, no [.] or [..]) separated by
    single slashes runs in [/workspace/<dir>], and so do its nested steps
    unless they override it. *)
Theorem plain_relative_dir step containerName dir missing c0 x xs :
  jenkinsfile.Command step <> "" ->
  jenkinsfile.Container step = "" ->
  jenkinsfile.Dir step = strings_Join (x :: xs) "/" ->
  Forall plainElement (x :: xs) ->
  firstContainer defaultContainerName PodTemplates
    (effectiveName defaultContainerName containerName) = Some c0 ->
  createSteps defaultContainerName PodTemplates step containerName dir missing =
  rangeSteps
    (fun s => createSteps defaultContainerName PodTemplates s
                (effectiveName defaultContainerName containerName)
                ("/workspace/" +:+ jenkinsfile.Dir step))
    (jenkinsfile.Steps step)
    [ownStep c0 (jenkinsfile.Command step) ("/workspace/" +:+ jenkinsfile.Dir step)]
    (recordMissing PodTemplates (effectiveName defaultContainerName containerName) missing).
Proof.
  intros Hcmd Hk Hd Hall Hfirst.
  assert (Hctx : subtreeContext step containerName dir = (containerName, jenkinsfile.Dir step)).
  { unfold subtreeContext. rewrite Hk. simpl.
    destruct (String.eqb (jenkinsfile.Dir step) "") eqn:He; [|reflexivity].
    apply String.eqb_eq in He. rewrite Hd in He.
    destruct (Forall_inv Hall) as (Hx & _).
    exfalso. revert He. unfold strings_Join.
    destruct x as [|c tail]; [done|]. destruct xs; discriminate. }
  rewrite (createSteps_exec defaultContainerName PodTemplates step containerName dir missing c0 Hcmd);
    rewrite Hctx; simpl; [|exact Hfirst].
  by rewrite Hd, (normalizeDir_plain x xs Hall).
Qed.

(** *** Each step on its own *)

(** The steps of a plan do not depend on the names already recorded. *)
Lemma runPlan_any_missing es (missing : gmap string bool) cs missing' :
  runPlan defaultContainerName PodTemplates es missing = Returns (inl cs) missing' ->
  forall missing0 : gmap string bool, exists missing1,
    runPlan defaultContainerName PodTemplates es missing0 = Returns (inl cs) missing1.
Proof.
  intros Hrun missing0. rewrite runPlan_union in Hrun. rewrite (runPlan_union _ _ es missing0).
  destruct (runPlan _ _ es ∅) as [r added|]; [|discriminate].
  injection Hrun as -> _. eauto.
Qed.

Lemma runPlan_planSteps containerName dir ss : forall (missing : gmap string bool) cs missing',
  runPlan defaultContainerName PodTemplates
    (planSteps defaultContainerName containerName dir ss) missing = Returns (inl cs) missing' ->
  exists parts,
    cs = concat parts /\
    Forall2 (fun s part => forall missing0 : gmap string bool, exists missing1,
               createSteps defaultContainerName PodTemplates s containerName dir missing0
               = Returns (part, None) missing1) ss parts.
Proof.
  unfold planSteps.
  induction ss as [|s ss IH]; intros missing cs missing'; simpl.
  - intros [= <- _]. exists []. split; [reflexivity|constructor].
  - rewrite runPlan_app.
    destruct (runPlan _ _ (plan _ s containerName dir) missing) as [[part|err] m1|] eqn:Hs;
      [|discriminate..].
    destruct (runPlan _ _ (flat_map _ ss) m1) as [[rest|err] m2|] eqn:Hss; [|discriminate..].
    simpl. intros [= <- _].
    destruct (IH _ _ _ Hss) as (parts & -> & Hparts).
    exists (part :: parts). split; [reflexivity|]. constructor; [|exact Hparts].
    intros missing0. destruct (runPlan_any_missing _ _ _ _ Hs missing0) as [missing1 H1].
    exists missing1. apply observed_inl. by rewrite createSteps_runPlan.
Qed.

(** X17. The steps of a subtree are the step of its root, if it has a
    command, followed by the steps of each nested step compiled on its
    own: every nested step is compiled in the same inherited context,
    which its siblings cannot change, and yields the same steps whatever
    was compiled before it. *)
Theorem createSteps_composes step containerName dir missing ss missing' :
  createSteps defaultContainerName PodTemplates step containerName dir missing
  = Returns (ss, None) missing' ->
  exists own parts,
    ss = own ++ concat parts /\
    length own = (if executable step then 1 else 0) /\
    Forall2 (fun s part => forall missing0 : gmap string bool, exists missing1,
               createSteps defaultContainerName PodTemplates s
                 (if executable step
                  then effectiveName defaultContainerName
                         (subtreeContext step containerName dir).1
                  else (subtreeContext step containerName dir).1)
                 (if executable step
                  then normalizeDir (subtreeContext step containerName dir).2
                  else (subtreeContext step containerName dir).2) missing0
               = Returns (part, None) missing1)
      (jenkinsfile.Steps step) parts.
Proof.
  intros Hrun.
  assert (Hobs : observed (createSteps defaultContainerName PodTemplates step containerName dir
                             missing) = Returns (inl ss) missing') by (by rewrite Hrun).
  rewrite createSteps_runPlan in Hobs. revert Hobs.
  destruct step as [command container sdir steps]. unfold executable. simpl.
  destruct (subtreeContext _ containerName dir) as [c d]. simpl.
  destruct (negb (String.eqb command "")).
  - cbn [runPlan].
    destruct (runExec _ _ _ missing) as [[own|err] m1|]; [|discriminate..].
    destruct (runPlan _ _ _ m1) as [[cs|err] m2|] eqn:Hcs; [|discriminate..].
    intros [= <- _].
    destruct (runPlan_planSteps _ _ _ _ _ _ Hcs) as (parts & -> & Hparts).
    exists [own], parts. done.
  - intros Hcs.
    destruct (runPlan_planSteps _ _ _ _ _ _ Hcs) as (parts & -> & Hparts).
    exists [], parts. done.
Qed.

(** X18. The steps of an emitted Task are the steps of each root step
    compiled on its own from the agent's container and the workspace
    root, whatever the stage it is in and whatever was compiled before
    it. *)
Theorem generatePipeline_composes name pipelineConfig lifecycles kind missing task missing' :
  generatePipeline defaultContainerName ToValidName PodTemplates name pipelineConfig
    (Some lifecycles) kind missing = Returns (Emitted task) missing' ->
  exists parts,
    pipelineapi.Steps task = concat parts /\
    Forall2 (fun s part => forall missing0 : gmap string bool, exists missing1,
               createSteps defaultContainerName PodTemplates s
                 (jenkinsfile.Agent_Container (jenkinsfile.Agent pipelineConfig))
                 "/workspace" missing0
               = Returns (part, None) missing1)
      (stageForest (jenkinsfile.All lifecycles)) parts.
Proof.
  rewrite generatePipeline_runPlan, planAll_stageForest.
  destruct (runPlan _ _ _ missing) as [[cs|err] m1|] eqn:Hcs; [|discriminate..].
  intros [= <- _]. simpl. by eapply runPlan_planSteps.
Qed.

End CompilerProperties.

(** ** The command *)

(** Team settings ([jenkins.io/v1]), the fields [Run] reads. *)
Module v1.

Record TeamSettings := mkTeamSettings {
  BuildPackURL : string;
  BuildPackRef : string
}.

End v1.

(** The project configuration ([pkg/config]), the fields [Run] reads. *)
Module config.

Record ProjectConfig := mkProjectConfig {
  BuildPack : string;
  PipelineConfig : option jenkinsfile.PipelineConfig
}.

End config.

(** Package [cmd]: the options of the command. *)
Module cmd.

(** [StepCreateTaskOptions], without the embedded [StepOptions]. *)
Record StepCreateTaskOptions := mkStepCreateTaskOptions {
  Pack : string;
  Dir : string;
  OutputFile : string;
  BuildPackURL : string;
  BuildPackRef : string;
  PipelineKind : string;
  PodTemplates : gmap string corev1.Pod;
  MissingPodTemplates : gmap string bool
}.

(** [InvokeDraftPack], the fields [discoverBuildPack] sets. *)
Record InvokeDraftPack := mkInvokeDraftPack {
  InvokeDraftPack_Dir : string;
  CustomDraftPack : string;
  ProjectConfig : config.ProjectConfig;
  DisableAddFiles : bool
}.

End cmd.

(** Assignments to the fields of the options. *)
Definition setPack (o : cmd.StepCreateTaskOptions) (v : string) : cmd.StepCreateTaskOptions :=
  cmd.mkStepCreateTaskOptions v (cmd.Dir o) (cmd.OutputFile o) (cmd.BuildPackURL o)
    (cmd.BuildPackRef o) (cmd.PipelineKind o) (cmd.PodTemplates o) (cmd.MissingPodTemplates o).

Definition setDir (o : cmd.StepCreateTaskOptions) (v : string) : cmd.StepCreateTaskOptions :=
  cmd.mkStepCreateTaskOptions (cmd.Pack o) v (cmd.OutputFile o) (cmd.BuildPackURL o)
    (cmd.BuildPackRef o) (cmd.PipelineKind o) (cmd.PodTemplates o) (cmd.MissingPodTemplates o).

Definition setBuildPackURL (o : cmd.StepCreateTaskOptions) (v : string)
    : cmd.StepCreateTaskOptions :=
  cmd.mkStepCreateTaskOptions (cmd.Pack o) (cmd.Dir o) (cmd.OutputFile o) v
    (cmd.BuildPackRef o) (cmd.PipelineKind o) (cmd.PodTemplates o) (cmd.MissingPodTemplates o).

Definition setBuildPackRef (o : cmd.StepCreateTaskOptions) (v : string)
    : cmd.StepCreateTaskOptions :=
  cmd.mkStepCreateTaskOptions (cmd.Pack o) (cmd.Dir o) (cmd.OutputFile o) (cmd.BuildPackURL o)
    v (cmd.PipelineKind o) (cmd.PodTemplates o) (cmd.MissingPodTemplates o).

Definition setPodTemplates (o : cmd.StepCreateTaskOptions) (v : gmap string corev1.Pod)
    : cmd.StepCreateTaskOptions :=
  cmd.mkStepCreateTaskOptions (cmd.Pack o) (cmd.Dir o) (cmd.OutputFile o) (cmd.BuildPackURL o)
    (cmd.BuildPackRef o) (cmd.PipelineKind o) v (cmd.MissingPodTemplates o).

Definition setMissingPodTemplates (o : cmd.StepCreateTaskOptions) (v : gmap string bool)
    : cmd.StepCreateTaskOptions :=
  cmd.mkStepCreateTaskOptions (cmd.Pack o) (cmd.Dir o) (cmd.OutputFile o) (cmd.BuildPackURL o)
    (cmd.BuildPackRef o) (cmd.PipelineKind o) (cmd.PodTemplates o) v.

(** What the command calls outside this file, each call standing for its
    result: a value ([inl]) or an error ([inr]).  The Git client and the
    Kubernetes client are part of the calls that use them. *)
Record Collaborators := mkCollaborators {
  (** [o.TeamSettings()]. *)
  TeamSettings : v1.TeamSettings + string;
  (** [os.Getwd()]: the dir and the error. *)
  Getwd : string * option string;
  (** [config.LoadProjectConfig(dir)]: the configuration and its file. *)
  LoadProjectConfig : string -> (config.ProjectConfig * string) + string;
  (** [o.invokeDraftPack(args)]: the pack and the error. *)
  invokeDraftPack : cmd.InvokeDraftPack -> string * option string;
  (** [o.KubeClientAndDevNamespace()]: the error. *)
  KubeClientAndDevNamespace : option string;
  (** [ConfigMaps(ns).Get(kube.ConfigMapJenkinsPodTemplates)]: the entries
      of [cm.Data] in the order the [range] visits them. *)
  GetConfigMap : list (string * string) + string;
  (** [yaml.Unmarshal] of a pod. *)
  yaml_Unmarshal : string -> corev1.Pod + string;
  (** [gitresolver.InitBuildPack(git, url, ref)]. *)
  InitBuildPack : string -> string -> string + string;
  Resolver : Type;
  (** [gitresolver.CreateResolver(packsDir, git)]. *)
  CreateResolver : string -> Resolver + string;
  (** [util.FileExists(path)]. *)
  FileExists : string -> bool + string;
  (** [jenkinsfile.LoadPipelineConfig(file, resolver, jenkinsfileRunner)]. *)
  LoadPipelineConfig : string -> Resolver -> bool -> jenkinsfile.PipelineConfig + string;
  (** [local.ExtendPipeline(base, jenkinsfileRunner)]: the receiver after
      the call. *)
  ExtendPipeline : jenkinsfile.PipelineConfig -> jenkinsfile.PipelineConfig -> bool ->
                   jenkinsfile.PipelineConfig + string;
  (** [util.MissingOption(name)]. *)
  MissingOption : string -> string;
  (** [jenkinsfile.PipelineConfigFileName]. *)
  PipelineConfigFileName : string;
  (** [yaml.Marshal(task)]: the YAML text. *)
  yaml_Marshal : pipelineapi.Task -> string + string;
  (** [ioutil.WriteFile(fileName, data, util.DefaultWritePermissions)]: the
      error. *)
  WriteFile : string -> string -> option string
}.

(** [errors.Wrapf(err, format, args...)] of [github.com/pkg/errors]: the
    message, a colon and the cause. *)
Definition errors_Wrapf (err message : string) : string := message +:+ ": " +:+ err.

(** What [Run] has done when it is over: the error it returned, the options
    as it left them and the Task whose YAML it logged or wrote to the
    output file, or a panic. *)
Inductive RunResult : Type :=
  | Ran (err : option string) (o : cmd.StepCreateTaskOptions) (task : option pipelineapi.Task)
  | RunPanic.

(** Case analysis on the innermost call or test that a [match] of the goal
    waits for. *)
Ltac destruct_scrutinee :=
  match goal with
  | |- context [match ?x with _ => _ end] =>
      lazymatch x with
      | context [match _ with _ => _ end] => fail
      | _ => destruct x eqn:?
      end
  end.

Section Command.

Context (defaultContainerName : string).
Context (PipelineKindRelease PipelineKindPullRequest PipelineKindFeature : string).
Context (PipelineKinds : list string).
Context (ToValidName : string -> string).
Context (env : Collaborators).

(** The loop of [loadPodTemplates] over [cm.Data]. *)
Fixpoint loadPodTemplates_loop (data : list (string * string))
    (templates : gmap string corev1.Pod) : gmap string corev1.Pod * option string :=
  match data with
  | [] => (templates, None)
  | (k, v) :: rest =>
      if negb (String.eqb v "") then
        match yaml_Unmarshal env v with
        | inr err => (templates, Some err)
        | inl pod => loadPodTemplates_loop rest (<[k := pod]> templates)
        end
      else loadPodTemplates_loop rest templates
  end.

(** [loadPodTemplates]: the options after the call and the error. *)
Definition loadPodTemplates (o : cmd.StepCreateTaskOptions)
    : cmd.StepCreateTaskOptions * option string :=
  let o := setPodTemplates o ∅ in
  match KubeClientAndDevNamespace env with
  | Some err => (o, Some err)
  | None =>
      match GetConfigMap env with
      | inr err => (o, Some err)
      | inl data =>
          let '(templates, err) := loadPodTemplates_loop data (cmd.PodTemplates o) in
          (setPodTemplates o templates, err)
      end
  end.

(** [discoverBuildPack]: the pack and the error. *)
Definition discoverBuildPack (o : cmd.StepCreateTaskOptions) (dir : string)
    (projectConfig : config.ProjectConfig) : string * option string :=
  let args := {| cmd.InvokeDraftPack_Dir := cmd.Dir o;
                 cmd.CustomDraftPack := cmd.Pack o;
                 cmd.ProjectConfig := projectConfig;
                 cmd.DisableAddFiles := true |} in
  let '(pack, err) := invokeDraftPack env args in
  match err with
  | Some err =>
      (pack, Some (errors_Wrapf err ("failed to discover task pack in dir " +:+ cmd.Dir o)))
  | None => (pack, None)
  end.

(** Lines 260-274, the end of [generatePipeline], with [o.OutputFile] as
    [fileName]: the Task built is marshalled, then logged when there is no
    output file and written to the file otherwise.  The error returned. *)
Definition saveTask (fileName : string) (task : pipelineapi.Task) : option string :=
  match yaml_Marshal env task with
  | inr err => Some (errors_Wrapf err "failed to marshal Task YAML")
  | inl data =>
      if String.eqb fileName "" then None
      else
        match WriteFile env fileName data with
        | Some err => Some (errors_Wrapf err ("failed to save Task file " +:+ fileName))
        | None => None
        end
  end.

(** [Run].  The call of [generateTask] on line 177 is the model's
    [generateTask] followed, when a Task was built, by [saveTask]. *)
Definition Run (o : cmd.StepCreateTaskOptions) : RunResult :=
  match TeamSettings env with
  | inr err => Ran (Some err) o None
  | inl settings =>
  let o :=
    if String.eqb (cmd.BuildPackURL o) "" || String.eqb (cmd.BuildPackRef o) "" then
      let o := if String.eqb (cmd.BuildPackURL o) ""
               then setBuildPackURL o (v1.BuildPackURL settings) else o in
      let o := if String.eqb (cmd.BuildPackRef o) ""
               then setBuildPackRef o (v1.BuildPackRef settings) else o in
      o
    else o in
  if String.eqb (cmd.BuildPackURL o) "" then Ran (Some (MissingOption env "url")) o None
  else if String.eqb (cmd.BuildPackRef o) "" then Ran (Some (MissingOption env "ref")) o None
  else if String.eqb (cmd.PipelineKind o) "" then Ran (Some (MissingOption env "kind")) o None
  else
  let '(o, err) :=
    if String.eqb (cmd.Dir o) "" then (setDir o (Getwd env).1, (Getwd env).2)
    else (o, None) in
  match err with
  | Some err => Ran (Some err) o None
  | None =>
  match LoadProjectConfig env (cmd.Dir o) with
  | inr err =>
      Ran (Some (errors_Wrapf err ("failed to load project config in dir " +:+ cmd.Dir o)))
        o None
  | inl (projectConfig, projectConfigFile) =>
  let o := if String.eqb (cmd.Pack o) ""
           then setPack o (config.BuildPack projectConfig) else o in
  let o := if String.eqb (cmd.Pack o) ""
           then setPack o (discoverBuildPack o (cmd.Dir o) projectConfig).1 else o in
  if String.eqb (cmd.Pack o) "" then Ran (Some (MissingOption env "pack")) o None
  else
  let '(o, err) := loadPodTemplates o in
  match err with
  | Some err => Ran (Some err) o None
  | None =>
  let o := setMissingPodTemplates o ∅ in
  match InitBuildPack env (cmd.BuildPackURL o) (cmd.BuildPackRef o) with
  | inr err => Ran (Some err) o None
  | inl packsDir =>
  match CreateResolver env packsDir with
  | inr err => Ran (Some err) o None
  | inl resolver =>
  let name := cmd.Pack o in
  let packDir := filepath_Join [packsDir; name] in
  let pipelineFile := filepath_Join [packDir; PipelineConfigFileName env] in
  match FileExists env pipelineFile with
  | inr err =>
      Ran (Some (errors_Wrapf err
                   ("failed to find build pack pipeline YAML: " +:+ pipelineFile))) o None
  | inl exists_ =>
  if negb exists_ then
    Ran (Some ("no build pack for " +:+ name +:+ " exists at directory " +:+ packDir)) o None
  else
  let jenkinsfileRunner := true in
  match LoadPipelineConfig env pipelineFile resolver jenkinsfileRunner with
  | inr err =>
      Ran (Some (errors_Wrapf err
                   ("failed to load build pack pipeline YAML: " +:+ pipelineFile))) o None
  | inl pipelineConfig =>
  let generate (pipelineConfig : jenkinsfile.PipelineConfig) : RunResult :=
    match generateTask defaultContainerName PipelineKindRelease PipelineKindPullRequest
            PipelineKindFeature PipelineKinds ToValidName (cmd.PodTemplates o)
            (cmd.PipelineKind o) name pipelineConfig (cmd.MissingPodTemplates o) with
    | NilPanic => RunPanic
    | Returns (Failed err) missing =>
        Ran (Some (errors_Wrapf err
                     ("failed to generate Task for build pack pipeline YAML: "
                      +:+ pipelineFile)))
          (setMissingPodTemplates o missing) None
    | Returns (Emitted task) missing =>
        match saveTask (cmd.OutputFile o) task with
        | Some err =>
            Ran (Some (errors_Wrapf err
                         ("failed to generate Task for build pack pipeline YAML: "
                          +:+ pipelineFile)))
              (setMissingPodTemplates o missing) None
        | None => Ran None (setMissingPodTemplates o missing) (Some task)
        end
    | Returns NoTask missing => Ran None (setMissingPodTemplates o missing) None
    end in
  match config.PipelineConfig projectConfig with
  | None => generate pipelineConfig
  | Some localPipelineConfig =>
      match ExtendPipeline env localPipelineConfig pipelineConfig jenkinsfileRunner with
      | inr err =>
          Ran (Some (errors_Wrapf err
                       ("failed to override PipelineConfig using configuration in file "
                        +:+ projectConfigFile))) o None
      | inl localPipelineConfig => generate localPipelineConfig
      end
  end
  end end end end end end end
  end.

(** *** Loading the pod templates *)

(** A ConfigMap value the loop accepts: empty, or the YAML of a pod. *)
Definition loadable (kv : string * string) : Prop :=
  kv.2 = "" \/ exists pod, yaml_Unmarshal env kv.2 = inl pod.

Lemma loadPodTemplates_loop_ok data : forall templates,
  (loadPodTemplates_loop data templates).2 = None <-> Forall loadable data.
Proof.
  clear defaultContainerName PipelineKindRelease PipelineKindPullRequest PipelineKindFeature
    PipelineKinds ToValidName.
  induction data as [|[k v] data IH]; intros templates; simpl.
  - split; [constructor|reflexivity].
  - rewrite Forall_cons. unfold loadable at 1. simpl.
    destruct (String.eqb v "") eqn:Hv; simpl.
    + apply String.eqb_eq in Hv. rewrite IH. naive_solver.
    + apply String.eqb_neq in Hv.
      destruct (yaml_Unmarshal env v) as [pod|err]; simpl.
      * rewrite IH. naive_solver.
      * split; [discriminate|]. intros [[?|[pod [=]]] _]. done.
Qed.

Lemma loadPodTemplates_loop_lookup data : forall templates loaded,
  NoDup data.*1 ->
  loadPodTemplates_loop data templates = (loaded, None) ->
  forall k pod,
    loaded !! k = Some pod <->
    (exists v, (k, v) ∈ data /\ v <> "" /\ yaml_Unmarshal env v = inl pod) \/
    ((forall v, (k, v) ∈ data -> v = "") /\ templates !! k = Some pod).
Proof.
  clear defaultContainerName PipelineKindRelease PipelineKindPullRequest PipelineKindFeature
    PipelineKinds ToValidName.
  induction data as [|[k0 v0] data IH]; intros templates loaded Hnd; simpl.
  - intros [= <-] k pod. split; [intros H; right; split; [|exact H]|].
    + intros v Hin. by apply elem_of_nil in Hin.
    + intros [(v & Hin & _)|[_ H]]; [by apply elem_of_nil in Hin|exact H].
  - rewrite fmap_cons in Hnd. apply NoDup_cons in Hnd as [Hfresh Hnd]. simpl in Hfresh.
    assert (Hrest : forall v, (k0, v) ∉ data).
    { intros v Hin. apply Hfresh. apply list_elem_of_fmap. by exists (k0, v). }
    destruct (String.eqb v0 "") eqn:Hv; simpl.
    + apply String.eqb_eq in Hv. subst v0. intros Hloop k pod.
      rewrite (IH _ _ Hnd Hloop k pod). split.
      * intros [(v & Hin & Hne & Hu)|[Hall Hk]].
        -- left. exists v. split; [by apply elem_of_cons; right|done].
        -- right. split; [|exact Hk].
           intros v [[= _ <-]|Hin]%elem_of_cons; [reflexivity|by apply Hall].
      * intros [(v & [[= -> ->]|Hin]%elem_of_cons & Hne & Hu)|[Hall Hk]].
        -- done.
        -- left. eauto.
        -- right. split; [|exact Hk]. intros v Hin. apply Hall, elem_of_cons. by right.
    + apply String.eqb_neq in Hv.
      destruct (yaml_Unmarshal env v0) as [pod0|err] eqn:Hu0; [|discriminate].
      intros Hloop k pod. rewrite (IH _ _ Hnd Hloop k pod).
      destruct (decide (k = k0)) as [->|Hne].
      * rewrite lookup_insert_eq. split.
        -- intros [(v & Hin & _)|[_ [= <-]]]; [by apply Hrest in Hin|].
           left. exists v0. split; [by apply elem_of_cons; left|done].
        -- intros [(v & [[= ->]|Hin]%elem_of_cons & _ & Hu)|[Hall _]].
           ++ right. split; [intros v Hin; by apply Hrest in Hin|congruence].
           ++ by apply Hrest in Hin.
           ++ exfalso. apply Hv, Hall, elem_of_cons. by left.
      * rewrite (lookup_insert_ne _ _ _ _ (not_eq_sym Hne)). split.
        -- intros [(v & Hin & Hnev & Hu)|[Hall Hk]].
           ++ left. exists v. split; [by apply elem_of_cons; right|done].
           ++ right. split; [|exact Hk].
              intros v [[= -> _]|Hin]%elem_of_cons; [done|by apply Hall].
        -- intros [(v & [[= -> _]|Hin]%elem_of_cons & Hnev & Hu)|[Hall Hk]].
           ++ done.
           ++ left. eauto.
           ++ right. split; [|exact Hk]. intros v Hin. apply Hall, elem_of_cons. by right.
Qed.

(** X10. [loadPodTemplates] replaces [PodTemplates] by the pods of the
    ConfigMap and touches no other option: it returns no error exactly
    when every non-empty value is the YAML of a pod, and then a name is
    bound to a pod exactly when the ConfigMap binds it to a non-empty value
    that unmarshals to that pod.  A name with an empty value has no
    template, and nothing of the templates held before is left. *)
Theorem loadPodTemplates_entries o data :
  KubeClientAndDevNamespace env = None ->
  GetConfigMap env = inl data ->
  NoDup data.*1 ->
  ((loadPodTemplates o).2 = None <-> Forall loadable data) /\
  ((loadPodTemplates o).2 = None ->
   forall k pod,
     cmd.PodTemplates (loadPodTemplates o).1 !! k = Some pod <->
     exists v, (k, v) ∈ data /\ v <> "" /\ yaml_Unmarshal env v = inl pod) /\
  (loadPodTemplates o).1 = setPodTemplates o (cmd.PodTemplates (loadPodTemplates o).1).
Proof.
  clear defaultContainerName PipelineKindRelease PipelineKindPullRequest PipelineKindFeature
    PipelineKinds ToValidName.
  intros Hkube Hget Hnd. unfold loadPodTemplates. rewrite Hkube, Hget.
  destruct (loadPodTemplates_loop data (cmd.PodTemplates (setPodTemplates o ∅)))
    as [loaded err] eqn:Hloop.
  simpl. split; [|split].
  - rewrite <- (loadPodTemplates_loop_ok data (cmd.PodTemplates (setPodTemplates o ∅))).
    by rewrite Hloop.
  - intros ->. intros k pod.
    rewrite (loadPodTemplates_loop_lookup data _ _ Hnd Hloop k pod). simpl.
    rewrite lookup_empty. naive_solver.
  - reflexivity.
Qed.

(** X11. The pods loaded do not depend on the order in which the [range]
    visits the ConfigMap: two enumerations of the same entries (one entry
    per name) load the same templates, when loading succeeds. *)
Theorem loadPodTemplates_order_irrelevant data1 data2 loaded :
  Permutation data1 data2 ->
  NoDup data1.*1 ->
  loadPodTemplates_loop data1 ∅ = (loaded, None) ->
  loadPodTemplates_loop data2 ∅ = (loaded, None).
Proof.
  clear defaultContainerName PipelineKindRelease PipelineKindPullRequest PipelineKindFeature
    PipelineKinds ToValidName.
  intros Hperm Hnd Hloop1.
  assert (Hnd2 : NoDup data2.*1) by (by rewrite <- Hperm).
  destruct (loadPodTemplates_loop data2 ∅) as [loaded2 err2] eqn:Hloop2.
  assert (Herr : err2 = None).
  { change err2 with (loaded2, err2).2. rewrite <- Hloop2.
    apply loadPodTemplates_loop_ok. rewrite <- Hperm.
    apply (loadPodTemplates_loop_ok data1 ∅). by rewrite Hloop1. }
  subst err2. f_equal. apply map_eq. intros k. apply option_eq. intros pod.
  rewrite (loadPodTemplates_loop_lookup data2 _ _ Hnd2 Hloop2 k pod).
  rewrite (loadPodTemplates_loop_lookup data1 _ _ Hnd Hloop1 k pod).
  setoid_rewrite Hperm. reflexivity.
Qed.

(** *** Options of the command *)

(** The build pack URL and ref [Run] works with: the flag when it is given,
    the team setting otherwise. *)
Definition effectiveURL (o : cmd.StepCreateTaskOptions) (settings : v1.TeamSettings) : string :=
  if String.eqb (cmd.BuildPackURL o) "" then v1.BuildPackURL settings else cmd.BuildPackURL o.

Definition effectiveRef (o : cmd.StepCreateTaskOptions) (settings : v1.TeamSettings) : string :=
  if String.eqb (cmd.BuildPackRef o) "" then v1.BuildPackRef settings else cmd.BuildPackRef o.

Lemma loadPodTemplates_fields o :
  cmd.Pack (loadPodTemplates o).1 = cmd.Pack o /\
  cmd.Dir (loadPodTemplates o).1 = cmd.Dir o /\
  cmd.OutputFile (loadPodTemplates o).1 = cmd.OutputFile o /\
  cmd.BuildPackURL (loadPodTemplates o).1 = cmd.BuildPackURL o /\
  cmd.BuildPackRef (loadPodTemplates o).1 = cmd.BuildPackRef o /\
  cmd.PipelineKind (loadPodTemplates o).1 = cmd.PipelineKind o.
Proof.
  unfold loadPodTemplates.
  destruct (KubeClientAndDevNamespace env); [done|].
  destruct (GetConfigMap env); [|done].
  destruct (loadPodTemplates_loop _ _). done.
Qed.

(** The options after lines 99-106. *)
Lemma defaulted_options o settings :
  (if String.eqb (cmd.BuildPackURL o) "" || String.eqb (cmd.BuildPackRef o) "" then
     let o := if String.eqb (cmd.BuildPackURL o) ""
              then setBuildPackURL o (v1.BuildPackURL settings) else o in
     let o := if String.eqb (cmd.BuildPackRef o) ""
              then setBuildPackRef o (v1.BuildPackRef settings) else o in
     o
   else o) =
  setBuildPackRef (setBuildPackURL o (effectiveURL o settings)) (effectiveRef o settings).
Proof.
  unfold effectiveURL, effectiveRef.
  destruct o as [pack dir out url ref kind templates missing]. simpl.
  destruct (String.eqb url "") eqn:Hurl; simpl;
    destruct (String.eqb ref "") eqn:Href; simpl; rewrite ?Hurl, ?Href; reflexivity.
Qed.

Local Opaque filepath_Join.

Lemma Run_inversion_settings o settings err o' task :
  TeamSettings env = inl settings ->
  Run o = Ran err o' task ->
  cmd.OutputFile o' = cmd.OutputFile o /\
  cmd.PipelineKind o' = cmd.PipelineKind o /\
  cmd.BuildPackURL o' = effectiveURL o settings /\
  cmd.BuildPackRef o' = effectiveRef o settings /\
  (err = None ->
   cmd.Pack o' <> "" /\ cmd.PipelineKind o' <> "" /\
   exists pipelineConfig outcome,
     generateTask defaultContainerName PipelineKindRelease PipelineKindPullRequest
       PipelineKindFeature PipelineKinds ToValidName (cmd.PodTemplates o')
       (cmd.PipelineKind o') (cmd.Pack o') pipelineConfig ∅
     = Returns outcome (cmd.MissingPodTemplates o') /\
     (outcome = NoTask /\ task = None \/
      exists t, outcome = Emitted t /\ task = Some t /\
                saveTask (cmd.OutputFile o') t = None)) /\
  (is_Some task -> err = None).
Proof.
  intros Hsettings. unfold Run. rewrite Hsettings.
  pose proof (defaulted_options o settings) as Hdefaulted. cbv zeta in Hdefaulted.
  cbv zeta. rewrite Hdefaulted. clear Hdefaulted Hsettings.
  assert (H1 : cmd.OutputFile (setBuildPackRef (setBuildPackURL o (effectiveURL o settings))
                                 (effectiveRef o settings)) = cmd.OutputFile o /\
               cmd.PipelineKind (setBuildPackRef (setBuildPackURL o (effectiveURL o settings))
                                   (effectiveRef o settings)) = cmd.PipelineKind o /\
               cmd.BuildPackURL (setBuildPackRef (setBuildPackURL o (effectiveURL o settings))
                                   (effectiveRef o settings)) = effectiveURL o settings /\
               cmd.BuildPackRef (setBuildPackRef (setBuildPackURL o (effectiveURL o settings))
                                   (effectiveRef o settings)) = effectiveRef o settings)
    by done.
  revert H1.
  generalize (setBuildPackRef (setBuildPackURL o (effectiveURL o settings))
                (effectiveRef o settings)).
  intros o1 (Hout & Hkind & Hu & Hr).
  rewrite <- Hout, <- Hkind, <- Hu, <- Hr. clear Hout Hkind Hu Hr o settings.
  repeat (destruct_scrutinee; simpl).
  all: try discriminate.
  all: intros [= <- <- <-]; simpl.
  all: repeat match goal with
              | H : loadPodTemplates ?x = _ |- _ =>
                  let F := fresh "Hfields" in
                  pose proof (loadPodTemplates_fields x) as F;
                  rewrite H in F; simpl in F; clear H;
                  destruct F as (Hp & Hd & Ho & Hu & Hr & Hk)
              | H : String.eqb _ _ = false |- _ => apply String.eqb_neq in H
              end.
  all: rewrite ?Ho, ?Hu, ?Hr, ?Hk.
  all: do 4 (split; [reflexivity|]).
  all: (split; [|by intros [? [=]]]).
  all: try (intros [=]; fail).
  all: intros _.
  all: rewrite ?Hk in *.
  all: (split; [congruence|]).
  all: (split; [congruence|]).
  all: rewrite ?Ho in *.
  all: eexists _, _; (split; [eassumption|]); eauto 6.
Qed.

Local Transparent filepath_Join.

(** What [Run] leaves behind.  The options keep the output file and the
    kind and hold the URL and ref worked with; a Task is emitted only
    without error; and without error [generateTask] has run on the
    templates, kind and pack the options hold, from an empty
    [MissingPodTemplates], and has left the [MissingPodTemplates] they
    hold. *)
Lemma Run_inversion o err o' task :
  Run o = Ran err o' task ->
  cmd.OutputFile o' = cmd.OutputFile o /\
  cmd.PipelineKind o' = cmd.PipelineKind o /\
  (forall settings, TeamSettings env = inl settings ->
     cmd.BuildPackURL o' = effectiveURL o settings /\
     cmd.BuildPackRef o' = effectiveRef o settings) /\
  (err = None ->
   cmd.Pack o' <> "" /\ cmd.PipelineKind o' <> "" /\
   exists pipelineConfig outcome,
     generateTask defaultContainerName PipelineKindRelease PipelineKindPullRequest
       PipelineKindFeature PipelineKinds ToValidName (cmd.PodTemplates o')
       (cmd.PipelineKind o') (cmd.Pack o') pipelineConfig ∅
     = Returns outcome (cmd.MissingPodTemplates o') /\
     (outcome = NoTask /\ task = None \/
      exists t, outcome = Emitted t /\ task = Some t /\
                saveTask (cmd.OutputFile o') t = None)) /\
  (is_Some task -> err = None).
Proof.
  intros Hrun. destruct (TeamSettings env) as [settings|e] eqn:Hsettings.
  - destruct (Run_inversion_settings o settings err o' task Hsettings Hrun)
      as (H1 & H2 & H3 & H4 & H5 & H6).
    split; [exact H1|]. split; [exact H2|].
    split; [intros s [= <-]; by split|]. by split.
  - revert Hrun. unfold Run. rewrite Hsettings. intros [= <- <- <-].
    split; [reflexivity|]. split; [reflexivity|].
    split; [intros s [=]|]. split; [intros [=]|by intros [? [=]]].
Qed.

(** X12. Once the team settings are read, [Run] takes the build pack URL
    and ref from the flags and falls back to the team settings only for
    the one that is empty; it then reports the first of url, ref and kind
    that is still empty as a missing option, in that order, whatever the
    other options and collaborators are; and whenever it returns, the
    options hold that URL and ref. *)
Theorem Run_option_checks o settings :
  TeamSettings env = inl settings ->
  (effectiveURL o settings = "" ->
   exists o', Run o = Ran (Some (MissingOption env "url")) o' None) /\
  (effectiveURL o settings <> "" -> effectiveRef o settings = "" ->
   exists o', Run o = Ran (Some (MissingOption env "ref")) o' None) /\
  (effectiveURL o settings <> "" -> effectiveRef o settings <> "" ->
   cmd.PipelineKind o = "" ->
   exists o', Run o = Ran (Some (MissingOption env "kind")) o' None) /\
  (forall err o' task,
     Run o = Ran err o' task ->
     cmd.BuildPackURL o' = effectiveURL o settings /\
     cmd.BuildPackRef o' = effectiveRef o settings /\
     cmd.PipelineKind o' = cmd.PipelineKind o /\
     cmd.OutputFile o' = cmd.OutputFile o).
Proof.
  intros Hsettings.
  assert (Hleft : forall err o' task,
            Run o = Ran err o' task ->
            cmd.BuildPackURL o' = effectiveURL o settings /\
            cmd.BuildPackRef o' = effectiveRef o settings /\
            cmd.PipelineKind o' = cmd.PipelineKind o /\
            cmd.OutputFile o' = cmd.OutputFile o).
  { intros err o' task Hrun.
    destruct (Run_inversion _ _ _ _ Hrun) as (Hout & Hkind & Hflags & _).
    destruct (Hflags settings Hsettings) as [Hu Hr]. done. }
  revert Hleft. unfold Run, effectiveURL, effectiveRef. rewrite Hsettings.
  destruct o as [pack dir out url ref kind templates missing]. simpl. intros Hleft.
  split; [|split; [|split; [|exact Hleft]]]; clear Hleft.
  - intros Hu.
    destruct (String.eqb url "") eqn:Hurl; simpl in *;
      destruct (String.eqb ref "") eqn:Href; simpl in *; rewrite ?Hurl, ?Href; simpl.
    all: try (apply String.eqb_neq in Hurl; congruence).
    all: rewrite Hu; simpl; eauto.
  - intros Hu Hr.
    destruct (String.eqb url "") eqn:Hurl; simpl in *;
      destruct (String.eqb ref "") eqn:Href; simpl in *; rewrite ?Hurl, ?Href; simpl.
    all: try (apply String.eqb_neq in Href; congruence).
    all: apply String.eqb_neq in Hu; rewrite ?Hu, ?Hurl, Hr; simpl; eauto.
  - intros Hu Hr Hk.
    destruct (String.eqb url "") eqn:Hurl; simpl in *;
      destruct (String.eqb ref "") eqn:Href; simpl in *; rewrite ?Hurl, ?Href; simpl.
    all: apply String.eqb_neq in Hu, Hr; rewrite ?Hu, ?Hr, ?Hurl, ?Href, Hk; simpl; eauto.
Qed.

(** *** What a run leaves behind *)

Lemma generateTask_missing_cases templates kind name pipelineConfig
    (missing : gmap string bool) outcome missing' k :
  generateTask defaultContainerName PipelineKindRelease PipelineKindPullRequest
    PipelineKindFeature PipelineKinds ToValidName templates kind name pipelineConfig missing
  = Returns outcome missing' ->
  missing' !! k = missing !! k \/ (missing' !! k = Some true /\ templates !! k = None).
Proof.
  assert (Hpipeline : forall lifecycles,
            generatePipeline defaultContainerName ToValidName templates name pipelineConfig
              lifecycles kind missing = Returns outcome missing' ->
            missing' !! k = missing !! k \/
            (missing' !! k = Some true /\ templates !! k = None)).
  { intros [lifecycles|].
    - rewrite generatePipeline_runPlan.
      destruct (runPlan _ _ _ missing) as [[cs|err] m1|] eqn:Hrun; [| |discriminate].
      all: intros [= _ <-]; eapply runPlan_missing_cases; exact Hrun.
    - simpl. intros [= _ <-]. by left. }
  unfold generateTask.
  destruct (String.eqb kind PipelineKindRelease); [apply Hpipeline|].
  destruct (String.eqb kind PipelineKindPullRequest); [apply Hpipeline|].
  destruct (String.eqb kind PipelineKindFeature); [apply Hpipeline|].
  intros [= _ <-]. by left.
Qed.


Local Opaque filepath_Join.

(** A run that ends without error ends the same way, with the same
    options, whatever [PodTemplates] and [MissingPodTemplates] held when it
    was called. *)
Lemma Run_success_resets o templates stale o' task :
  Run o = Ran None o' task ->
  Run (setMissingPodTemplates (setPodTemplates o templates) stale) = Ran None o' task.
Proof.
  unfold Run.
  destruct (TeamSettings env) as [settings|e]; [|discriminate].
  pose proof (defaulted_options o settings) as H1.
  pose proof (defaulted_options (setMissingPodTemplates (setPodTemplates o templates) stale)
                settings) as H2.
  cbv zeta in H1, H2. cbv zeta. rewrite H1, H2. clear H1 H2.
  change (effectiveURL (setMissingPodTemplates (setPodTemplates o templates) stale) settings)
    with (effectiveURL o settings).
  change (effectiveRef (setMissingPodTemplates (setPodTemplates o templates) stale) settings)
    with (effectiveRef o settings).
  generalize (effectiveURL o settings), (effectiveRef o settings). intros eu er.
  unfold loadPodTemplates, discoverBuildPack.
  destruct o as [pack dir out url ref kind templates0 missing0]. simpl.
  repeat (destruct_scrutinee; simpl).
  all: try discriminate.
  all: intros Hrun; exact Hrun.
Qed.

Local Transparent filepath_Join.

(** X13. When [Run] returns without error, [MissingPodTemplates] holds
    only container names that have no pod template among the templates
    just loaded, each bound to [true]; and nothing in it comes from the map
    the options held before the run: started with any other
    [MissingPodTemplates], and any other [PodTemplates], the run ends
    without error with the very same options and Task, so with the map a
    run started from empty maps leaves. *)
Theorem Run_success_missing_sound o o' task :
  Run o = Ran None o' task ->
  (forall k v,
     cmd.MissingPodTemplates o' !! k = Some v ->
     v = true /\ cmd.PodTemplates o' !! k = None) /\
  (forall templates stale,
     Run (setMissingPodTemplates (setPodTemplates o templates) stale) = Ran None o' task).
Proof.
  intros Hrun. split.
  - intros k v Hk.
    destruct (Run_inversion _ _ _ _ Hrun) as (_ & _ & _ & Hok & _).
    destruct (Hok eq_refl) as (_ & _ & pipelineConfig & outcome & Hgen & _).
    destruct (generateTask_missing_cases _ _ _ _ _ _ _ k Hgen) as [Hsame|[Hnew Habsent]].
    + rewrite Hk, lookup_empty in Hsame. discriminate.
    + rewrite Hk in Hnew. by injection Hnew as ->.
  - intros templates stale. by apply Run_success_resets.
Qed.



(** The pack held by the options that [loadPodTemplates] returned. *)
Ltac loaded_pack :=
  match goal with
  | H : loadPodTemplates ?x = _ |- _ =>
      let F := fresh "Hfields" in
      pose proof (loadPodTemplates_fields x) as F;
      rewrite H in F; simpl in F; clear H;
      destruct F as (Hp & _)
  end.

(** *** The build pack name *)

(** The pack [Run] settles on: the flag, else the build pack of the
    project configuration, else the pack discovered. *)
Definition resolvedPack (o : cmd.StepCreateTaskOptions) (projectConfig : config.ProjectConfig)
    : string :=
  if negb (String.eqb (cmd.Pack o) "") then cmd.Pack o
  else if negb (String.eqb (config.BuildPack projectConfig) "")
  then config.BuildPack projectConfig
  else (invokeDraftPack env {| cmd.InvokeDraftPack_Dir := cmd.Dir o;
                               cmd.CustomDraftPack := "";
                               cmd.ProjectConfig := projectConfig;
                               cmd.DisableAddFiles := true |}).1.

Local Opaque filepath_Join.

(** X19. Once url, ref, kind and dir are settled and the project
    configuration is loaded, [Run] takes the pack from the flag, else from
    the project configuration, else from the discovery; when all three are
    empty it fails with the missing option [pack], whatever error the
    discovery returned; otherwise the options hold that pack whenever it
    returns. *)
Theorem Run_pack_resolution o settings projectConfig projectConfigFile :
  TeamSettings env = inl settings ->
  effectiveURL o settings <> "" ->
  effectiveRef o settings <> "" ->
  cmd.PipelineKind o <> "" ->
  cmd.Dir o <> "" ->
  LoadProjectConfig env (cmd.Dir o) = inl (projectConfig, projectConfigFile) ->
  (resolvedPack o projectConfig = "" ->
   exists o', Run o = Ran (Some (MissingOption env "pack")) o' None) /\
  (forall err o' task,
     Run o = Ran err o' task -> cmd.Pack o' = resolvedPack o projectConfig).
Proof.
  intros Hsettings Hu Hr Hk Hd Hload. unfold Run, resolvedPack. rewrite Hsettings.
  pose proof (defaulted_options o settings) as Hdefaulted. cbv zeta in Hdefaulted.
  cbv zeta. rewrite Hdefaulted. clear Hdefaulted Hsettings.
  assert (H1 : cmd.PipelineKind (setBuildPackRef (setBuildPackURL o (effectiveURL o settings))
                                   (effectiveRef o settings)) = cmd.PipelineKind o /\
               cmd.BuildPackURL (setBuildPackRef (setBuildPackURL o (effectiveURL o settings))
                                   (effectiveRef o settings)) = effectiveURL o settings /\
               cmd.BuildPackRef (setBuildPackRef (setBuildPackURL o (effectiveURL o settings))
                                   (effectiveRef o settings)) = effectiveRef o settings /\
               cmd.Dir (setBuildPackRef (setBuildPackURL o (effectiveURL o settings))
                          (effectiveRef o settings)) = cmd.Dir o /\
               cmd.Pack (setBuildPackRef (setBuildPackURL o (effectiveURL o settings))
                           (effectiveRef o settings)) = cmd.Pack o)
    by done.
  revert H1.
  generalize (setBuildPackRef (setBuildPackURL o (effectiveURL o settings))
                (effectiveRef o settings)).
  intros o1 (Hkind1 & Hu1 & Hr1 & Hd1 & Hp1).
  rewrite <- Hkind1 in Hk. rewrite <- Hu1 in Hu. rewrite <- Hr1 in Hr.
  rewrite <- Hd1 in Hd, Hload. rewrite <- Hd1, <- Hp1.
  clear Hkind1 Hu1 Hr1 Hd1 Hp1 o settings.
  apply String.eqb_neq in Hu, Hr, Hk, Hd. rewrite Hu, Hr, Hk, Hd. cbv iota beta.
  rewrite Hload. cbv iota beta.
  unfold discoverBuildPack.
  destruct (String.eqb (cmd.Pack o1) "") eqn:Hpack; simpl; rewrite ?Hpack; simpl.
  - destruct (String.eqb (config.BuildPack projectConfig) "") eqn:Hbp; simpl;
      rewrite ?Hbp; simpl.
    + pose proof Hbp as Hempty. apply String.eqb_eq in Hempty. rewrite !Hempty.
      destruct (invokeDraftPack env _) as [discovered [e|]] eqn:Hinvoke; simpl.
      all: destruct (String.eqb discovered "") eqn:Hdisc; simpl.
      all: try (apply String.eqb_eq in Hdisc; subst discovered).
      all: split; [eauto; try (intros ->; simpl in Hdisc; discriminate)|].
      all: intros err o' task.
      all: try (by intros [= <- <- <-]).
      all: repeat (destruct_scrutinee; simpl).
      all: try discriminate.
      all: intros [= <- <- <-]; simpl.
      all: repeat loaded_pack.
      all: congruence.
    + split; [intros Hnone; rewrite Hnone in Hbp; discriminate|].
      intros err o' task.
      repeat (destruct_scrutinee; simpl).
      all: try discriminate.
      all: intros [= <- <- <-]; simpl.
      all: repeat loaded_pack.
      all: congruence.
  - split; [intros Hnone; rewrite Hnone in Hpack; discriminate|].
    intros err o' task.
    repeat (destruct_scrutinee; simpl).
    all: try discriminate.
    all: intros [= <- <- <-]; simpl.
    all: repeat loaded_pack.
    all: congruence.
Qed.

Local Transparent filepath_Join.

End Command.

(** The same, leaving the build pack discovery and the compilation alone. *)
Ltac destruct_outer_scrutinee :=
  match goal with
  | |- context [match ?x with _ => _ end] =>
      lazymatch x with
      | context [match _ with _ => _ end] => fail
      | context [discoverBuildPack] => fail
      | context [generateTask] => fail
      | _ => destruct x eqn:?
      end
  end.

(** The collaborators with another [invokeDraftPack]. *)
Definition withInvokeDraftPack (env : Collaborators)
    (invoke : cmd.InvokeDraftPack -> string * option string) : Collaborators :=
  {| TeamSettings := TeamSettings env;
     Getwd := Getwd env;
     LoadProjectConfig := LoadProjectConfig env;
     invokeDraftPack := invoke;
     KubeClientAndDevNamespace := KubeClientAndDevNamespace env;
     GetConfigMap := GetConfigMap env;
     yaml_Unmarshal := yaml_Unmarshal env;
     InitBuildPack := InitBuildPack env;
     Resolver := Resolver env;
     CreateResolver := CreateResolver env;
     FileExists := FileExists env;
     LoadPipelineConfig := LoadPipelineConfig env;
     ExtendPipeline := ExtendPipeline env;
     MissingOption := MissingOption env;
     PipelineConfigFileName := PipelineConfigFileName env;
     yaml_Marshal := yaml_Marshal env;
     WriteFile := WriteFile env |}.

(** What the caller of [Run] sees: the error and the Task, or the panic. *)
Definition runOutcome (r : RunResult) : option (option string * option pipelineapi.Task) :=
  match r with
  | Ran err _ task => Some (err, task)
  | RunPanic => None
  end.

Section CommandCollaborators.

Context (defaultContainerName : string).
Context (PipelineKindRelease PipelineKindPullRequest PipelineKindFeature : string).
Context (PipelineKinds : list string).
Context (ToValidName : string -> string).

Lemma discoverBuildPack_pack env o dir projectConfig :
  (discoverBuildPack env o dir projectConfig).1 =
  (invokeDraftPack env {| cmd.InvokeDraftPack_Dir := cmd.Dir o;
                          cmd.CustomDraftPack := cmd.Pack o;
                          cmd.ProjectConfig := projectConfig;
                          cmd.DisableAddFiles := true |}).1.
Proof.
  unfold discoverBuildPack. destruct (invokeDraftPack env _) as [pack [err|]]; reflexivity.
Qed.

Local Opaque filepath_Join.

(** X15. The error of the build pack discovery never surfaces: [Run] uses
    only the pack name that [invokeDraftPack] returns, so it does the same
    with a discovery that returns the same names and other errors, or
    none.  (A failed discovery that returns no name ends as the missing
    option [pack].) *)
Theorem Run_discovery_error_dropped env invoke o :
  (forall args, (invoke args).1 = (invokeDraftPack env args).1) ->
  Run defaultContainerName PipelineKindRelease PipelineKindPullRequest PipelineKindFeature
    PipelineKinds ToValidName (withInvokeDraftPack env invoke) o =
  Run defaultContainerName PipelineKindRelease PipelineKindPullRequest PipelineKindFeature
    PipelineKinds ToValidName env o.
Proof.
  intros Hinvoke.
  assert (Hpack : forall o dir projectConfig,
            (discoverBuildPack (withInvokeDraftPack env invoke) o dir projectConfig).1 =
            (discoverBuildPack env o dir projectConfig).1).
  { intros o0 dir projectConfig. rewrite !discoverBuildPack_pack. apply Hinvoke. }
  unfold Run.
  change (loadPodTemplates (withInvokeDraftPack env invoke)) with (loadPodTemplates env).
  change (TeamSettings (withInvokeDraftPack env invoke)) with (TeamSettings env).
  change (Getwd (withInvokeDraftPack env invoke)) with (Getwd env).
  change (LoadProjectConfig (withInvokeDraftPack env invoke)) with (LoadProjectConfig env).
  change (InitBuildPack (withInvokeDraftPack env invoke)) with (InitBuildPack env).
  change (Resolver (withInvokeDraftPack env invoke)) with (Resolver env).
  change (CreateResolver (withInvokeDraftPack env invoke)) with (CreateResolver env).
  change (FileExists (withInvokeDraftPack env invoke)) with (FileExists env).
  change (LoadPipelineConfig (withInvokeDraftPack env invoke)) with (LoadPipelineConfig env).
  change (ExtendPipeline (withInvokeDraftPack env invoke)) with (ExtendPipeline env).
  change (MissingOption (withInvokeDraftPack env invoke)) with (MissingOption env).
  change (PipelineConfigFileName (withInvokeDraftPack env invoke))
    with (PipelineConfigFileName env).
  change (saveTask (withInvokeDraftPack env invoke)) with (saveTask env).
  destruct (TeamSettings env) as [settings|e]; [|reflexivity].
  cbv zeta.
  repeat (destruct_outer_scrutinee; try reflexivity).
  all: rewrite !Hpack; reflexivity.
Qed.

(** X16. [Run] starts from fresh maps: the error it returns and the Task
    it emits do not depend on the [PodTemplates] and [MissingPodTemplates]
    the options hold when it is called. *)
Theorem Run_ignores_stale_maps env o templates missing :
  runOutcome
    (Run defaultContainerName PipelineKindRelease PipelineKindPullRequest PipelineKindFeature
       PipelineKinds ToValidName env
       (setMissingPodTemplates (setPodTemplates o templates) missing)) =
  runOutcome
    (Run defaultContainerName PipelineKindRelease PipelineKindPullRequest PipelineKindFeature
       PipelineKinds ToValidName env o).
Proof.
  unfold Run.
  destruct (TeamSettings env) as [settings|e]; [|reflexivity].
  pose proof (defaulted_options o settings) as H1.
  pose proof (defaulted_options (setMissingPodTemplates (setPodTemplates o templates) missing)
                settings) as H2.
  cbv zeta in H1, H2. cbv zeta. rewrite H1, H2. clear H1 H2.
  change (effectiveURL (setMissingPodTemplates (setPodTemplates o templates) missing) settings)
    with (effectiveURL o settings).
  change (effectiveRef (setMissingPodTemplates (setPodTemplates o templates) missing) settings)
    with (effectiveRef o settings).
  generalize (effectiveURL o settings), (effectiveRef o settings). intros eu er.
  unfold loadPodTemplates, discoverBuildPack.
  destruct o as [pack dir out url ref kind templates0 missing0]. simpl.
  repeat (destruct_scrutinee; simpl).
  all: reflexivity.
Qed.

Local Transparent filepath_Join.

End CommandCollaborators.

(** ** The sanitizer, again *)

Lemma filter_kept_twice (env : list corev1.EnvVar) :
  List.filter (fun e => negb (hasReservedPrefix (corev1.EnvVar_Name e)))
    (List.filter (fun e => negb (hasReservedPrefix (corev1.EnvVar_Name e))) env) =
  List.filter (fun e => negb (hasReservedPrefix (corev1.EnvVar_Name e))) env.
Proof.
  induction env as [|e env IH]; simpl; [reflexivity|].
  destruct (negb (hasReservedPrefix (corev1.EnvVar_Name e))) eqn:He; simpl;
    [rewrite He; f_equal|]; exact IH.
Qed.

(** X20. Sanitizing is idempotent, and the two sanitizing steps commute:
    a container that went through [removeUnnecessaryVolumes] and
    [removeUnnecessaryEnvVars] is left as it is by a second pass, and the
    order of the two calls does not matter. *)
Theorem sanitizer_idempotent c :
  removeUnnecessaryEnvVars
    (removeUnnecessaryVolumes (removeUnnecessaryEnvVars (removeUnnecessaryVolumes c))) =
  removeUnnecessaryEnvVars (removeUnnecessaryVolumes c) /\
  removeUnnecessaryVolumes (removeUnnecessaryEnvVars c) =
  removeUnnecessaryEnvVars (removeUnnecessaryVolumes c).
Proof.
  unfold removeUnnecessaryEnvVars, removeUnnecessaryVolumes. simpl.
  rewrite !removeUnnecessaryEnvVars_loop_filter. simpl.
  by rewrite filter_kept_twice.
Qed.

(** ** Concrete runs *)

(** Collaborators that all succeed: team settings with a build pack URL
    and ref, a project without build pack or pipeline of its own, a
    discovery that finds [go] and complains, a ConfigMap with the [maven]
    template and an empty entry, and a build pack whose release pipeline
    asks for the container [nodejs]. *)
Definition ex_env : Collaborators :=
  {| TeamSettings := inl (v1.mkTeamSettings "https://example.org/packs.git" "master");
     Getwd := ("/home/dev/app", None);
     LoadProjectConfig := fun dir =>
       inl (config.mkProjectConfig "" None, dir +:+ "/jenkins-x.yml");
     invokeDraftPack := fun _ => ("go", Some "no chart found");
     KubeClientAndDevNamespace := None;
     GetConfigMap := inl [("maven", "maven-pod"); ("gradle", "")];
     yaml_Unmarshal := fun v =>
       if String.eqb v "maven-pod" then inl (corev1.mkPod (corev1.mkPodSpec [ex_container]))
       else inr "yaml: cannot unmarshal";
     InitBuildPack := fun _ _ => inl "/packs";
     Resolver := unit;
     CreateResolver := fun _ => inl tt;
     FileExists := fun _ => inl true;
     LoadPipelineConfig := fun _ _ _ =>
       inl (ex_config (Some (jenkinsfile.mkPipelineLifecycles [ex_stage [ex_nodejs]])));
     ExtendPipeline := fun localPipelineConfig _ _ => inl localPipelineConfig;
     MissingOption := fun name => "Missing option: --" +:+ name;
     PipelineConfigFileName := "pipeline.yaml";
     yaml_Marshal := fun task => inl ("name: " +:+ pipelineapi.Name task);
     WriteFile := fun fileName _ =>
       if String.eqb fileName "/proc/task.yml" then Some "permission denied" else None |}.

(** The options of [jx step create task] without flags but the default
    kind, with stale maps left by an earlier use. *)
Definition ex_options : cmd.StepCreateTaskOptions :=
  {| cmd.Pack := "";
     cmd.Dir := "";
     cmd.OutputFile := "";
     cmd.BuildPackURL := "";
     cmd.BuildPackRef := "";
     cmd.PipelineKind := "release";
     cmd.PodTemplates := ex_empty_templates;
     cmd.MissingPodTemplates := {[ "gradle" := true ]} |}.

Definition ex_Run (env : Collaborators) (o : cmd.StepCreateTaskOptions) : RunResult :=
  Run "maven" "release" "pullrequest" "feature" ex_kinds (fun name => name) env o.

(** A group without command around a step without command. *)
Definition ex_idle : jenkinsfile.PipelineStep :=
  jenkinsfile.mkPipelineStep "" "nodejs" "charts" [ex_leaf ""].

(** Pod templates that differ from [ex_templates] in all that the compiler
    overwrites or drops, and in nothing else of the first container. *)
Definition ex_other_templates : gmap string corev1.Pod :=
  {[ "maven" :=
       corev1.mkPod
         (corev1.mkPodSpec
            [corev1.mkContainer "maven" "maven:3" ["mvn"] ["verify"] "/src"
               [corev1.mkEnvVar "DOCKER_CONFIG" "/docker" None;
                corev1.mkEnvVar "PATH" "/usr/bin" None]
               []
               [("resources", "limits: {memory: 1Gi}")];
             corev1.mkContainer "sidecar" "busybox" [] [] "" [] []
               [("ports", "containerPort: 80")]]) ]}.

(** ** The further properties at concrete inputs *)

Lemma createSteps_without_commands_witness :
  createSteps "maven" ∅ ex_idle "" "/workspace" ∅ = Returns ([], None) ∅.
Proof. apply createSteps_without_commands. repeat constructor. Defined.

Lemma generatePipeline_without_commands_witness :
  ex_generatePipeline ∅ "go" (ex_config None)
    (Some (jenkinsfile.mkPipelineLifecycles [ex_stage [ex_idle]; None])) "release" ∅ =
  Returns (Emitted (pipelineapi.mkTask "pipeline.knative.dev/v1alpha1" "Task"
                      "jx-task-go-release" [])) ∅.
Proof.
  apply (generatePipeline_without_commands "maven" (fun name => name) ∅ "go" (ex_config None)
           (jenkinsfile.mkPipelineLifecycles [ex_stage [ex_idle]; None]) "release" ∅).
  repeat constructor.
Defined.

Lemma emitted_task_shape_witness :
  exists task missing',
    ex_generatePipeline ex_templates "go" (ex_config None) (Some ex_two_stages) "release" ∅
    = Returns (Emitted task) missing' /\
    pipelineapi.Name task = "jx-task-go-release" /\
    length (pipelineapi.Steps task) = 3 /\
    Forall (fun c => corev1.Image c = "jenkinsxio/jx:latest" /\ corev1.VolumeMounts c = [])
      (pipelineapi.Steps task).
Proof.
  destruct (ex_generatePipeline ex_templates "go" (ex_config None) (Some ex_two_stages)
              "release" ∅) as [[|task|err] missing'|] eqn:E;
    try (vm_compute in E; discriminate E).
  exists task, missing'. split; [reflexivity|].
  destruct (emitted_task_shape "maven" (fun name => name) ex_templates "go" (ex_config None)
              (Some ex_two_stages) "release" ∅ task missing' E) as (_ & _ & Hname & Hsteps).
  split; [exact Hname|]. split.
  - vm_compute in E. by injection E as <- _.
  - eapply Forall_impl; [exact Hsteps|]. intros c (Hi & _ & _ & _ & Hv & _). by split.
Defined.

Lemma missing_templates_bookkeeping_witness :
  exists o missing',
    ex_generatePipeline ex_templates "go" (ex_config None) (Some ex_nodejs_release) "release" ∅
    = Returns o missing' /\
    missing' !! "maven" = None /\
    missing' !! "nodejs" = Some true.
Proof.
  destruct (ex_generatePipeline ex_templates "go" (ex_config None) (Some ex_nodejs_release)
              "release" ∅) as [o missing'|] eqn:E; [|vm_compute in E; discriminate E].
  exists o, missing'. split; [reflexivity|].
  destruct (missing_templates_bookkeeping "maven" (fun name => name) ex_templates "go"
              (ex_config None) (Some ex_nodejs_release) "release" ∅ o missing' E)
    as [Hcases Hrecorded].
  split.
  - destruct (Hcases "maven") as [->|[_ Habsent]]; [reflexivity|].
    vm_compute in Habsent. discriminate Habsent.
  - destruct o as [|task|err]; try (vm_compute in E; discriminate E).
    apply (Hrecorded task ex_nodejs_release (mkExec "npm test" "nodejs" "/workspace"));
      [reflexivity|reflexivity|left; reflexivity|vm_compute; reflexivity].
Defined.

Lemma stage_boundaries_invisible_witness :
  ex_generatePipeline ex_templates "go" (ex_config None) (Some ex_two_stages) "release" ∅ =
  ex_generatePipeline ex_templates "go" (ex_config None)
    (Some (jenkinsfile.mkPipelineLifecycles
             [ex_stage [ex_leaf "a1"; ex_leaf "a2"; ex_leaf "b1"]])) "release" ∅.
Proof. apply stage_boundaries_invisible. reflexivity. Defined.

Lemma plain_group_inlined_witness :
  ex_generatePipeline ex_templates "go" (ex_config None)
    (Some (jenkinsfile.mkPipelineLifecycles
             [ex_stage [ex_leaf "a1";
                        jenkinsfile.mkPipelineStep "" "" "" [ex_leaf "a2"; ex_leaf "b1"]]]))
    "release" ∅ =
  ex_generatePipeline ex_templates "go" (ex_config None)
    (Some (jenkinsfile.mkPipelineLifecycles
             [ex_stage [ex_leaf "a1"; ex_leaf "a2"; ex_leaf "b1"]])) "release" ∅.
Proof.
  apply (plain_group_inlined "maven" (fun name => name) ex_templates "go" (ex_config None) _ _
           "release" ∅ [ex_leaf "a1"]
           (jenkinsfile.mkPipelineStep "" "" "" [ex_leaf "a2"; ex_leaf "b1"]) []);
    reflexivity.
Defined.

Lemma empty_agent_container_is_default_witness :
  ex_generatePipeline ex_templates "go"
    (jenkinsfile.mkPipelineConfig (jenkinsfile.mkPipelineAgent "")
       (jenkinsfile.mkPipelines None None None))
    (Some ex_two_stages) "release" ∅ =
  ex_generatePipeline ex_templates "go" (ex_config None) (Some ex_two_stages) "release" ∅.
Proof. apply empty_agent_container_is_default; reflexivity. Defined.

Lemma only_template_skeleton_matters_witness :
  ex_generatePipeline ex_templates "go" (ex_config None) (Some ex_nodejs_release) "release" ∅ =
  ex_generatePipeline ex_other_templates "go" (ex_config None) (Some ex_nodejs_release)
    "release" ∅.
Proof.
  apply only_template_skeleton_matters. intros k.
  destruct (decide (k = "maven")) as [->|Hne].
  - vm_compute. reflexivity.
  - unfold ex_templates, ex_other_templates.
    rewrite !lookup_singleton_ne; [reflexivity|congruence|congruence].
Defined.

Lemma plain_relative_dir_witness :
  createSteps "maven" ex_templates
    (jenkinsfile.mkPipelineStep "make preview" "" "charts/preview" []) "" "/workspace" ∅ =
  Returns ([ownStep ex_container "make preview" "/workspace/charts/preview"], None) ∅.
Proof.
  apply (plain_relative_dir "maven" ex_templates
           (jenkinsfile.mkPipelineStep "make preview" "" "charts/preview" []) "" "/workspace" ∅
           ex_container "charts" ["preview"]).
  - discriminate.
  - reflexivity.
  - reflexivity.
  - repeat constructor; discriminate.
  - vm_compute. reflexivity.
Defined.

Lemma loadPodTemplates_entries_witness :
  (loadPodTemplates ex_env ex_options).2 = None /\
  cmd.PodTemplates (loadPodTemplates ex_env ex_options).1 !! "maven"
  = Some (corev1.mkPod (corev1.mkPodSpec [ex_container])).
Proof.
  destruct (loadPodTemplates_entries ex_env ex_options
              [("maven", "maven-pod"); ("gradle", "")]) as (Hok & Hlookup & _).
  - reflexivity.
  - reflexivity.
  - apply NoDup_ListNoDup. repeat constructor; simpl; intuition discriminate.
  - assert (Hnone : (loadPodTemplates ex_env ex_options).2 = None).
    { apply Hok.
      apply Forall_cons. split; [right; eexists; reflexivity|].
      apply Forall_cons. split; [left; reflexivity|constructor]. }
    split; [exact Hnone|]. apply (Hlookup Hnone). exists "maven-pod".
    split; [apply elem_of_cons; by left|]. split; [discriminate|reflexivity].
Defined.

Lemma loadPodTemplates_order_irrelevant_witness :
  loadPodTemplates_loop ex_env [("gradle", ""); ("maven", "maven-pod")] ∅ =
  (ex_templates, None).
Proof.
  apply (loadPodTemplates_order_irrelevant ex_env [("maven", "maven-pod"); ("gradle", "")]).
  - apply perm_swap.
  - apply NoDup_ListNoDup. repeat constructor; simpl; intuition discriminate.
  - vm_compute. reflexivity.
Defined.

Lemma Run_option_checks_witness :
  exists o',
    ex_Run ex_env (setBuildPackURL (cmd.mkStepCreateTaskOptions "" "" "" "" "" "" ∅ ∅)
                     "https://example.org/other.git")
    = Ran (Some "Missing option: --kind") o' None.
Proof.
  destruct (Run_option_checks "maven" "release" "pullrequest" "feature" ex_kinds
              (fun name => name) ex_env
              (setBuildPackURL (cmd.mkStepCreateTaskOptions "" "" "" "" "" "" ∅ ∅)
                 "https://example.org/other.git")
              (v1.mkTeamSettings "https://example.org/packs.git" "master"))
    as (_ & _ & Hkind & _); [reflexivity|].
  apply Hkind; [discriminate|discriminate|reflexivity].
Defined.

Lemma Run_success_missing_sound_witness :
  cmd.MissingPodTemplates ex_options !! "gradle" = Some true /\
  exists o' task,
    ex_Run ex_env ex_options = Ran None o' task /\
    cmd.MissingPodTemplates o' !! "gradle" = None /\
    cmd.MissingPodTemplates o' !! "nodejs" = Some true /\
    cmd.PodTemplates o' !! "nodejs" = None /\
    ex_Run ex_env (setMissingPodTemplates (setPodTemplates ex_options ∅) ∅) = Ran None o' task.
Proof.
  split; [reflexivity|]. unfold ex_Run.
  destruct (Run "maven" "release" "pullrequest" "feature" ex_kinds (fun name => name)
              ex_env ex_options) as [err o' task|] eqn:E;
    [|vm_compute in E; discriminate E].
  assert (Herr : err = None) by (vm_compute in E; by injection E).
  subst err. exists o', task. split; [reflexivity|].
  assert (Hgone : cmd.MissingPodTemplates o' !! "gradle" = None).
  { vm_compute in E. injection E as <- _. vm_compute. reflexivity. }
  assert (Hk : cmd.MissingPodTemplates o' !! "nodejs" = Some true).
  { vm_compute in E. injection E as <- _. vm_compute. reflexivity. }
  destruct (Run_success_missing_sound "maven" "release" "pullrequest" "feature" ex_kinds
              (fun name => name) ex_env ex_options o' task E) as [Hsound Hreset].
  split; [exact Hgone|]. split; [exact Hk|].
  split; [exact (proj2 (Hsound "nodejs" true Hk))|]. apply Hreset.
Defined.


Lemma Run_discovery_error_dropped_witness :
  ex_Run (withInvokeDraftPack ex_env (fun _ => ("go", None))) ex_options =
  ex_Run ex_env ex_options.
Proof. apply Run_discovery_error_dropped. reflexivity. Defined.

Lemma createSteps_composes_witness :
  exists ss missing' own parts,
    createSteps "maven" ex_templates ex_nodejs "maven" "/workspace" ∅
    = Returns (ss, None) missing' /\
    ss = own ++ concat parts /\ length own = 1 /\ length parts = 1.
Proof.
  destruct (createSteps "maven" ex_templates ex_nodejs "maven" "/workspace" ∅)
    as [[ss [err|]] missing'|] eqn:E; try (vm_compute in E; discriminate E).
  destruct (createSteps_composes "maven" ex_templates ex_nodejs "maven" "/workspace" ∅
              ss missing' E) as (own & parts & Hss & Hown & Hparts).
  exists ss, missing', own, parts. split; [reflexivity|]. split; [exact Hss|].
  split; [exact Hown|]. symmetry. apply (Forall2_length _ _ _ Hparts).
Defined.

Lemma generatePipeline_composes_witness :
  exists task missing' parts,
    ex_generatePipeline ex_templates "go" (ex_config None) (Some ex_two_stages) "release" ∅
    = Returns (Emitted task) missing' /\
    pipelineapi.Steps task = concat parts /\ length parts = 3.
Proof.
  destruct (ex_generatePipeline ex_templates "go" (ex_config None) (Some ex_two_stages)
              "release" ∅) as [[|task|err] missing'|] eqn:E;
    try (vm_compute in E; discriminate E).
  destruct (generatePipeline_composes "maven" (fun name => name) ex_templates "go"
              (ex_config None) ex_two_stages "release" ∅ task missing' E)
    as (parts & Hsteps & Hparts).
  exists task, missing', parts. split; [reflexivity|]. split; [exact Hsteps|].
  symmetry. apply (Forall2_length _ _ _ Hparts).
Defined.

Lemma Run_pack_resolution_witness :
  exists o',
    ex_Run (withInvokeDraftPack ex_env (fun _ => ("", Some "no chart found")))
      (setDir ex_options "/src/app")
    = Ran (Some "Missing option: --pack") o' None.
Proof.
  destruct (Run_pack_resolution "maven" "release" "pullrequest" "feature" ex_kinds
              (fun name => name)
              (withInvokeDraftPack ex_env (fun _ => ("", Some "no chart found")))
              (setDir ex_options "/src/app")
              (v1.mkTeamSettings "https://example.org/packs.git" "master")
              (config.mkProjectConfig "" None) "/src/app/jenkins-x.yml") as [Hnone _];
    try reflexivity; try discriminate.
  apply Hnone. reflexivity.
Defined.
